(** * Inventory reservation and order lifecycle of the e-commerce API

    A shallow embedding of the order pipeline of the repository:
    - [models/Product.js], [models/Order.js], [models/Payment.js],
      [models/Cart.js]: the documents and their methods;
    - the orders router in its version with [runWithTransaction]
      ([routes/products.js], lines 519 to 926): checkout, pay, the order
      listing, the order detail and the expiration sweeper, and its earlier
      version without the fallback (lines 175 to 518);
    - the admin router: the order status update, the order listing, the
      order detail and the revenue of the dashboard;
    - the cart router: showing the cart, removing a line and clearing it;
    - [addEmailJob] of [services/emailQueue.js].

    MongoDB collections are finite maps or lists held in one record [DB];
    the route handlers are written in a small state-and-exception monad so
    that they read like the JavaScript they embed.  JavaScript numbers are
    modelled by [Z] (stock counts, quantities, prices in minor units and
    millisecond timestamps); ObjectIds are the 96-bit naturals they denote.
    [Date.now()], the draw of [Math.random()] in the payment simulator and
    the random suffix of generated identifiers are arguments of the
    handlers.  A lost connection to MongoDB is outside the model; the state
    of the e-mail queue is part of the store. *)

From stdpp Require Import gmap list strings pretty.

Local Open Scope string_scope.
Local Open Scope Z_scope.

Abbreviation ObjectId := N.

(** ** Documents *)

(** [models/Product.js].  Only the fields read or written by the order
    pipeline are kept ([description], [category] and [imageUrl] are carried
    by no handler below). *)
Module Product.
Record t := mk {
  name : string;
  price : Z;
  stock : Z;
  reservedStock : Z;
  isActive : bool
}.

(** [productSchema.virtual('availableStock')] *)
Definition availableStock (p : t) : Z := stock p - reservedStock p.

(** The update document [{ $inc: { stock: ds, reservedStock: dr } }]. *)
Definition inc (ds dr : Z) (p : t) : t :=
  mk (name p) (price p) (stock p + ds) (reservedStock p + dr) (isActive p).
End Product.

(** [models/Cart.js] *)
Module Cart.
Record item := mkItem {
  productId : ObjectId;
  quantity : Z
}.

Record t := mk {
  items : list item;
  totalItems : Z;
  totalAmount : Z
}.

(** The update [{ items: [], totalItems: 0, totalAmount: 0 }]. *)
Definition cleared : t := mk [] 0 0.
End Cart.

(** [models/Order.js] *)
Module Order.
Inductive status_t :=
| PENDING_PAYMENT | PAID | SHIPPED | DELIVERED | CANCELLED.

Inductive paymentMethod_t :=
| CREDIT_CARD | DEBIT_CARD | PAYPAL | BANK_TRANSFER.

Record address := mkAddress {
  street : string; city : string; state : string;
  zipCode : string; country : string
}.

Record item := mkItem {
  productId : ObjectId;
  quantity : Z;
  priceAtPurchase : Z;
  productName : string
}.

Record t := mk {
  userId : ObjectId;
  orderNumber : string;
  items : list item;
  totalAmount : Z;
  status : status_t;
  shippingAddress : address;
  paymentMethod : paymentMethod_t;
  notes : option string;
  expiresAt : Z
}.

Definition status_eqb (a b : status_t) : bool :=
  match a, b with
  | PENDING_PAYMENT, PENDING_PAYMENT | PAID, PAID | SHIPPED, SHIPPED
  | DELIVERED, DELIVERED | CANCELLED, CANCELLED => true
  | _, _ => false
  end.

Definition status_str (s : status_t) : string :=
  match s with
  | PENDING_PAYMENT => "PENDING_PAYMENT"
  | PAID => "PAID"
  | SHIPPED => "SHIPPED"
  | DELIVERED => "DELIVERED"
  | CANCELLED => "CANCELLED"
  end.

(** [order.status = s] on a loaded document. *)
Definition setStatus (s : status_t) (o : t) : t :=
  mk (userId o) (orderNumber o) (items o) (totalAmount o) s
     (shippingAddress o) (paymentMethod o) (notes o) (expiresAt o).

(** The reservation window of the [expiresAt] default: [15 * 60 * 1000]. *)
Definition reservationWindow : Z := 15 * 60 * 1000.

(** [orderSchema.methods.isExpired], with [new Date()] passed as [now]. *)
Definition isExpired (now : Z) (o : t) : bool :=
  status_eqb (status o) PENDING_PAYMENT && (expiresAt o <? now).
End Order.

(** [models/Payment.js] *)
Module Payment.
Inductive status_t := SUCCESS | FAILED | PENDING.

Record t := mk {
  orderId : nat;
  transactionId : string;
  amount : Z;
  status : status_t;
  paymentMethod : Order.paymentMethod_t;
  gatewayResponse : option string;
  failureReason : option string
}.
End Payment.

(** The job handed to [addEmailJob] in [services/emailQueue.js]. *)
Record EmailJob := mkEmailJob {
  jobOrderId : nat;
  jobUserEmail : string;
  jobUserName : string;
  jobOrderNumber : string;
  jobTotalAmount : Z
}.

(** [req.user] *)
Record User := mkUser {
  user_id : ObjectId;
  user_email : string;
  user_name : string
}.

(** The module variable [emailQueue] of [services/emailQueue.js]: unset
    until [initializeEmailQueue] has run; once set, [emailQueue.add] either
    takes the job or rejects with an error of the queue's own. *)
Inductive EmailQueue :=
| QueueNotInitialized
| QueueRejects (message : string)
| QueueAccepts.

(** ** The store

    Products and carts are keyed by ObjectId (a cart by its unique
    [userId]); orders are never deleted, so the order collection is the
    list of orders in insertion order and an order's [_id] is its position;
    payments and queued e-mail jobs are append-only lists.  No handler
    below assigns [emailQueue]. *)
Record DB := {
  products : gmap N Product.t;
  orders : list Order.t;
  payments : list Payment.t;
  carts : gmap N Cart.t;
  emailJobs : list EmailJob;
  emailQueue : EmailQueue
}.

(** The store of a server that has initialised its e-mail queue, the queue
    taking jobs. *)
Definition mkDB (ps : gmap N Product.t) (os : list Order.t)
    (pays : list Payment.t) (cs : gmap N Cart.t) (jobs : list EmailJob) : DB :=
  Build_DB ps os pays cs jobs QueueAccepts.

(** ** Exceptions and the handler monad *)

Inductive Exn :=
| AppError (message : string) (statusCode : Z)
| TypeError                  (* property access on [null] *)
| ReplicaSetRequired         (* "Transaction numbers are only allowed on a
                                replica set member or mongos" *)
| ValidationError (model : string) (paths : list string)
                             (* Mongoose: "<model> validation failed", with
                                the paths whose validators failed *)
| Error (message : string).  (* [new Error(message)] *)

Inductive Res (A : Type) :=
| Ok (a : A)
| Throw (e : Exn).
Arguments Ok {A} a.
Arguments Throw {A} e.

(** A computation runs on the store and either returns or throws; the
    store it leaves behind holds every write made up to that point. *)
Definition M (A : Type) : Type := DB -> Res A * DB.

Definition ret {A} (a : A) : M A := fun db => (Ok a, db).

Definition throw {A} (e : Exn) : M A := fun db => (Throw e, db).

Definition bind {A B} (c : M A) (k : A -> M B) : M B :=
  fun db =>
    match c db with
    | (Ok a, db') => k a db'
    | (Throw e, db') => (Throw e, db')
    end.

Definition gets {A} (f : DB -> A) : M A := fun db => (Ok (f db), db).

Definition modify (f : DB -> DB) : M unit := fun db => (Ok tt, f db).

Notation "x <- c1 ;; c2" := (bind c1 (fun x => c2))
  (at level 100, c1 at next level, right associativity).
Notation "c1 ;; c2" := (bind c1 (fun _ => c2))
  (at level 100, right associativity).

(** [for (const x of xs) { await body(x) }] *)
Fixpoint for_of {A} (xs : list A) (body : A -> M unit) : M unit :=
  match xs with
  | [] => ret tt
  | x :: xs' => body x ;; for_of xs' body
  end.

(** ** Sessions and [runWithTransaction] *)

Inductive Deployment := ReplicaSet | Standalone.

Inductive ClientSession := TxnSession.

(** Any operation issued with a transaction session against a server that
    is not a replica-set member is refused before it takes effect. *)
Definition withSession (dep : Deployment) (session : option ClientSession)
  : M unit :=
  match session, dep with
  | Some _, Standalone => throw ReplicaSetRequired
  | _, _ => ret tt
  end.

Definition setProducts (f : gmap N Product.t -> gmap N Product.t) (db : DB) : DB :=
  Build_DB (f (products db)) (orders db) (payments db) (carts db) (emailJobs db)
           (emailQueue db).

Definition setOrders (f : list Order.t -> list Order.t) (db : DB) : DB :=
  Build_DB (products db) (f (orders db)) (payments db) (carts db) (emailJobs db)
           (emailQueue db).

Definition setPayments (f : list Payment.t -> list Payment.t) (db : DB) : DB :=
  Build_DB (products db) (orders db) (f (payments db)) (carts db) (emailJobs db)
           (emailQueue db).

Definition setCarts (f : gmap N Cart.t -> gmap N Cart.t) (db : DB) : DB :=
  Build_DB (products db) (orders db) (payments db) (f (carts db)) (emailJobs db)
           (emailQueue db).

Definition setEmailJobs (f : list EmailJob -> list EmailJob) (db : DB) : DB :=
  Build_DB (products db) (orders db) (payments db) (carts db) (f (emailJobs db))
           (emailQueue db).

(** Aborting a transaction discards the MongoDB writes made in it; the
    e-mail queue is not a MongoDB collection and keeps its jobs. *)
Definition abortTransaction (before after : DB) : DB :=
  Build_DB (products before) (orders before) (payments before)
           (carts before) (emailJobs after) (emailQueue after).

(** [error.message.includes('Transaction numbers are only allowed on a
    replica set member or mongos')]; the messages of the other errors are
    taken not to contain that sentence. *)
Definition isReplicaSetError (e : Exn) : bool :=
  match e with ReplicaSetRequired => true | _ => false end.

(** [runWithTransaction(callback)]: the callback runs inside
    [session.withTransaction]; an exception aborts the transaction and is
    rethrown, except for the replica-set error, after which the callback is
    run again with [session = null] and no transaction at all. *)
Definition runWithTransaction {A} (dep : Deployment)
    (callback : option ClientSession -> M A) : M A :=
  fun db =>
    match callback (Some TxnSession) db with
    | (Ok a, db') => (Ok a, db')
    | (Throw e, db') =>
        let db'' := abortTransaction db db' in
        if isReplicaSetError e then callback None db''
        else (Throw e, db'')
    end.

(** ** Collection operations used by the routers *)

(** A cart line after [.populate('items.productId')]: the reference is
    replaced by the product document, or by [null] when it is gone. *)
Record populatedItem := mkPopulated {
  pi_id : ObjectId;
  pi_product : option Product.t;
  pi_quantity : Z
}.

Definition populate (db : DB) (it : Cart.item) : populatedItem :=
  mkPopulated (Cart.productId it) (products db !! Cart.productId it)
              (Cart.quantity it).

(** [Cart.findOne({ userId }).populate('items.productId')]; the query is
    issued without a session. *)
Definition Cart_findOne (uid : ObjectId) : M (option (list populatedItem)) :=
  gets (fun db => (fun c => map (populate db) (Cart.items c)) <$> carts db !! uid).

(** [Cart.findByIdAndUpdate(cart._id, { items: [], totalItems: 0,
    totalAmount: 0 }, options)] *)
Definition Cart_clear dep session (uid : ObjectId) : M unit :=
  withSession dep session ;;
  modify (setCarts (alter (fun _ => Cart.cleared) uid)).

(** [Product.findByIdAndUpdate(id, { $inc: { stock: ds, reservedStock: dr } },
    options)]: no document, no update; schema validators are not run. *)
Definition Product_inc dep session (id : ObjectId) (ds dr : Z) : M unit :=
  withSession dep session ;;
  modify (setProducts (alter (Product.inc ds dr) id)).

(** *** Saving a new document

    [doc.save()] of a new document, and [Model.create([doc], options)]
    alike, first run the validators of the schema, then the [pre('save')]
    hooks of the schema, then insert: Mongoose registers validation as the
    first [pre('save')] hook.  A document that fails a validator is
    rejected with a ValidationError naming the failing paths before any
    hook of the schema has run and before anything is sent to the server.
    A path that was never assigned is [undefined]; for a string path it is
    modelled by the empty string, which [required] rejects like
    [undefined] and which [!this.path] takes for absent as well. *)

(** The paths, in order, whose validator does not hold. *)
Definition failing (validators : list (bool * string)) : list string :=
  map snd (List.filter (fun v => negb (fst v)) validators).

Definition required (value : string) : bool :=
  negb (String.eqb value EmptyString).

Definition maxlength (n : nat) (value : option string) : bool :=
  match value with
  | Some v => (String.length v <=? n)%nat
  | None => true
  end.

(** The validators of [orderItemSchema] on line [i] of a document.
    [productId] is always there. *)
Definition OrderItem_validate (i : nat) (it : Order.item) : list string :=
  let path field := "items." +:+ pretty i +:+ "." +:+ field in
  failing
    [ (1 <=? Order.quantity it, path "quantity");
      (0 <=? Order.priceAtPurchase it, path "priceAtPurchase");
      (required (Order.productName it), path "productName") ].

(** The validators of [orderSchema].  [userId] is always there, [status]
    and [paymentMethod] are values of their enumerations and [expiresAt]
    has its default. *)
Definition Order_validate (o : Order.t) : list string :=
  failing [ (required (Order.orderNumber o), "orderNumber") ]
  ++ concat (imap OrderItem_validate (Order.items o))
  ++ failing
       [ (0 <=? Order.totalAmount o, "totalAmount");
         (required (Order.street (Order.shippingAddress o)),
          "shippingAddress.street");
         (required (Order.city (Order.shippingAddress o)),
          "shippingAddress.city");
         (required (Order.state (Order.shippingAddress o)),
          "shippingAddress.state");
         (required (Order.zipCode (Order.shippingAddress o)),
          "shippingAddress.zipCode");
         (required (Order.country (Order.shippingAddress o)),
          "shippingAddress.country");
         (maxlength 500 (Order.notes o), "notes") ].

(** [orderSchema.pre('save')] *)
Definition Order_preSave (now : Z) (rnd : string) (o : Order.t) : Order.t :=
  match Order.orderNumber o with
  | EmptyString =>
      Order.mk (Order.userId o) ("ORD-" +:+ pretty now +:+ "-" +:+ rnd)
        (Order.items o) (Order.totalAmount o) (Order.status o)
        (Order.shippingAddress o) (Order.paymentMethod o) (Order.notes o)
        (Order.expiresAt o)
  | _ => o
  end.

(** [orderDoc.save(options)] of a new document [o], and
    [Order.create([o], options)]: validation, then [pre('save')], then
    the insertion; answers the [_id] and the document as saved. *)
Definition Order_save dep session (now : Z) (rnd : string) (o : Order.t)
  : M (nat * Order.t) :=
  match Order_validate o with
  | [] =>
      let saved := Order_preSave now rnd o in
      withSession dep session ;;
      id <- gets (fun db => length (orders db)) ;;
      modify (setOrders (fun os => (os ++ [saved])%list)) ;;
      ret (id, saved)
  | paths => throw (ValidationError "Order" paths)
  end.

(** [Order.findById(id)], with [.session(session)] when there is one. *)
Definition Order_findById dep session (id : nat) : M (option Order.t) :=
  withSession dep session ;;
  gets (fun db => orders db !! id).

(** [order.status = s; await order.save(options)] on a loaded document:
    the save writes the modified path [status] of the document [id],
    whatever the stored status is by then.  The loaded document passed
    validation when it was stored and [s] is a value of the enumeration,
    so the validation of this save passes. *)
Definition Order_saveStatus dep session (id : nat) (s : Order.status_t)
  : M unit :=
  withSession dep session ;;
  modify (setOrders (alter (Order.setStatus s) id)).

(** [orderSchema.methods.cancelIfExpired] on the loaded document [o] of
    [_id] [id]; the test reads the loaded document.  No route calls it. *)
Definition Order_cancelIfExpired (now : Z) (id : nat) (o : Order.t) : M bool :=
  if Order.isExpired now o
     && Order.status_eqb (Order.status o) Order.PENDING_PAYMENT then
    Order_saveStatus Standalone None id Order.CANCELLED ;;
    ret true
  else ret false.

(** The validators of [paymentSchema].  [orderId] is always there and
    [status] and [paymentMethod] are values of their enumerations. *)
Definition Payment_validate (p : Payment.t) : list string :=
  failing
    [ (required (Payment.transactionId p), "transactionId");
      (0 <=? Payment.amount p, "amount");
      (maxlength 500 (Payment.failureReason p), "failureReason") ].

(** [paymentSchema.pre('save')] *)
Definition Payment_preSave (now : Z) (rnd : string) (p : Payment.t) : Payment.t :=
  match Payment.transactionId p with
  | EmptyString =>
      Payment.mk (Payment.orderId p) ("TXN-" +:+ pretty now +:+ "-" +:+ rnd)
        (Payment.amount p) (Payment.status p) (Payment.paymentMethod p)
        (Payment.gatewayResponse p) (Payment.failureReason p)
  | _ => p
  end.

(** [payment.save(options)] of a new document [p], and
    [Payment.create([p], options)]: validation, then [pre('save')], then
    the insertion; answers the document as saved. *)
Definition Payment_save dep session (now : Z) (rnd : string) (p : Payment.t)
  : M Payment.t :=
  match Payment_validate p with
  | [] =>
      let saved := Payment_preSave now rnd p in
      withSession dep session ;;
      modify (setPayments (fun ps => (ps ++ [saved])%list)) ;;
      ret saved
  | paths => throw (ValidationError "Payment" paths)
  end.

(** [addEmailJob(job)]: throws when the queue was never initialised,
    rethrows the error of an [add] that the queue rejects, and otherwise
    the job joins the queue. *)
Definition addEmailJob (job : EmailJob) : M unit :=
  queue <- gets emailQueue ;;
  match queue with
  | QueueNotInitialized => throw (Error "Email queue not initialized")
  | QueueRejects message => throw (Error message)
  | QueueAccepts => modify (setEmailJobs (fun js => (js ++ [job])%list))
  end.

(** ** POST /api/orders/checkout *)

Record CheckoutBody := mkCheckoutBody {
  body_shippingAddress : Order.address;
  body_paymentMethod : Order.paymentMethod_t;
  body_notes : option string
}.

Definition orderItemOf (id : ObjectId) (product : Product.t) (quantity : Z)
  : Order.item :=
  Order.mkItem id quantity (Product.price product) (Product.name product).

(** The loop "Validate all products and check stock", with its two
    accumulators [orderItems] and [totalAmount]. *)
Fixpoint validateItems (cartItems : list populatedItem)
    (orderItems : list Order.item) (totalAmount : Z)
  : M (list Order.item * Z) :=
  match cartItems with
  | [] => ret (orderItems, totalAmount)
  | cartItem :: rest =>
      match pi_product cartItem with
      | None => throw TypeError
      | Some product =>
          if negb (Product.isActive product) then
            throw (AppError ("Product " +:+ Product.name product
                             +:+ " is no longer available") 400)
          else if Product.availableStock product <? pi_quantity cartItem then
            throw (AppError ("Insufficient stock for " +:+ Product.name product
                             +:+ ". Available: "
                             +:+ pretty (Product.availableStock product)) 400)
          else
            validateItems rest
              (orderItems ++ [orderItemOf (pi_id cartItem) product
                                          (pi_quantity cartItem)])%list
              (totalAmount + Product.price product * pi_quantity cartItem)
      end
  end.

(** [new Order({ userId, items: orderItems, totalAmount, shippingAddress,
    paymentMethod, notes, status: 'PENDING_PAYMENT' })]: no [orderNumber]
    is given, and [expiresAt] takes its default. *)
Definition newOrder (user : User) (body : CheckoutBody) (now : Z)
    (validated : list Order.item * Z) : Order.t :=
  Order.mk (user_id user) EmptyString (fst validated) (snd validated)
    Order.PENDING_PAYMENT (body_shippingAddress body)
    (body_paymentMethod body) (body_notes body)
    (now + Order.reservationWindow).

Definition checkoutCallback dep (user : User) (body : CheckoutBody)
    (now : Z) (rnd : string) (session : option ClientSession)
  : M (nat * Order.t) :=
  cart <- Cart_findOne (user_id user) ;;
  match cart with
  | None => throw (AppError "Cart is empty" 400)
  | Some cartItems =>
      if (length cartItems =? 0)%nat then throw (AppError "Cart is empty" 400)
      else
        validated <- validateItems cartItems [] 0 ;;
        orderDoc <- Order_save dep session now rnd
                      (newOrder user body now validated) ;;
        for_of cartItems (fun cartItem =>
          Product_inc dep session (pi_id cartItem) 0 (pi_quantity cartItem)) ;;
        Cart_clear dep session (user_id user) ;;
        ret orderDoc
  end.

Definition checkout dep (user : User) (body : CheckoutBody)
    (now : Z) (rnd : string) : M (nat * Order.t) :=
  runWithTransaction dep (checkoutCallback dep user body now rnd).

(** ** POST /api/orders/:id/pay *)

Definition wrongStatusMessage (s : Order.status_t) : string :=
  match s with
  | Order.PAID => "Order has already been paid"
  | Order.CANCELLED => "Order has been cancelled"
  | Order.SHIPPED => "Order has already been shipped"
  | Order.DELIVERED => "Order has already been delivered"
  | _ => "Cannot process payment. Order status is: " +:+ Order.status_str s
  end.

Definition failureReasonText : string := "Payment gateway declined transaction".

(** The order summary and payment of the 200 response. *)
Record PayResult := mkPayResult {
  paid_id : nat;
  paid_orderNumber : string;
  paid_status : Order.status_t;
  paid_totalAmount : Z;
  paid_payment : Payment.t
}.

(** [new Payment({ orderId, amount, status: 'FAILED', paymentMethod,
    failureReason })] and [new Payment({ orderId, amount, status:
    'SUCCESS', paymentMethod, gatewayResponse })]: no [transactionId] is
    given to either. *)
Definition newFailedPayment (orderId : nat) (order : Order.t) : Payment.t :=
  Payment.mk orderId EmptyString (Order.totalAmount order) Payment.FAILED
    (Order.paymentMethod order) None (Some failureReasonText).

Definition newSuccessPayment (orderId : nat) (order : Order.t) (now : Z)
  : Payment.t :=
  Payment.mk orderId EmptyString (Order.totalAmount order) Payment.SUCCESS
    (Order.paymentMethod order) (Some ("TXN-" +:+ pretty now)) None.

(** [paymentSuccess] is the draw [Math.random() > 0.1] of the simulator. *)
Definition payCallback dep (user : User) (orderId : nat) (now : Z)
    (paymentSuccess : bool) (rnd : string) (session : option ClientSession)
  : M PayResult :=
  found <- Order_findById dep session orderId ;;
  match found with
  | None => throw (AppError "Order not found" 404)
  | Some order =>
      if negb (Order.userId order =? user_id user)%N then
        throw (AppError "Unauthorized access to order" 403)
      else if Order.status_eqb (Order.status order) Order.PENDING_PAYMENT
              && Order.isExpired now order then
        Order_saveStatus dep session orderId Order.CANCELLED ;;
        for_of (Order.items order) (fun item =>
          Product_inc dep session (Order.productId item) 0
                      (- Order.quantity item)) ;;
        throw (AppError "Order has expired and been cancelled" 400)
      else if negb (Order.status_eqb (Order.status order) Order.PENDING_PAYMENT) then
        throw (AppError (wrongStatusMessage (Order.status order)) 400)
      else if negb paymentSuccess then
        Payment_save dep session now rnd (newFailedPayment orderId order) ;;
        throw (AppError "Payment failed. Please try again." 400)
      else
        paymentDoc <- Payment_save dep session now rnd
                        (newSuccessPayment orderId order now) ;;
        Order_saveStatus dep session orderId Order.PAID ;;
        for_of (Order.items order) (fun item =>
          Product_inc dep session (Order.productId item)
                      (- Order.quantity item) (- Order.quantity item)) ;;
        addEmailJob (mkEmailJob orderId (user_email user) (user_name user)
                       (Order.orderNumber order) (Order.totalAmount order)) ;;
        ret (mkPayResult orderId (Order.orderNumber order) Order.PAID
               (Order.totalAmount order) paymentDoc)
  end.

Definition pay dep (user : User) (orderId : nat) (now : Z)
    (paymentSuccess : bool) (rnd : string) : M PayResult :=
  runWithTransaction dep (payCallback dep user orderId now paymentSuccess rnd).

(** ** The expiration sweeper ([setInterval], every minute) *)

(** [Order.find({ status: 'PENDING_PAYMENT', expiresAt: { $lt: now } })]:
    the loaded documents, each with its [_id]. *)
Definition expiredOrders (now : Z) (db : DB) : list (nat * Order.t) :=
  List.filter
    (fun e => Order.status_eqb (Order.status (snd e)) Order.PENDING_PAYMENT
              && (Order.expiresAt (snd e) <? now))
    (imap pair (orders db)).

(** The body run for one loaded order. *)
Definition cancelCallback dep (e : nat * Order.t)
    (session : option ClientSession) : M unit :=
  Order_saveStatus dep session (fst e) Order.CANCELLED ;;
  for_of (Order.items (snd e)) (fun item =>
    Product_inc dep session (Order.productId item) 0 (- Order.quantity item)).

(** [try { ... } catch (error) { console.error(...) }] *)
Definition logErrors (c : M unit) : M unit :=
  fun db => (Ok tt, snd (c db)).

Definition cancelExpiredOrder dep (e : nat * Order.t) : M unit :=
  logErrors (runWithTransaction dep (cancelCallback dep e)).

Definition sweep dep (now : Z) : M unit :=
  logErrors
    (found <- gets (expiredOrders now) ;;
     for_of found (cancelExpiredOrder dep)).

(** ** PATCH /api/admin/orders/:id/status *)

Definition validTransitions (s : Order.status_t) : list Order.status_t :=
  match s with
  | Order.PENDING_PAYMENT => [Order.PAID; Order.CANCELLED]
  | Order.PAID => [Order.SHIPPED; Order.CANCELLED]
  | Order.SHIPPED => [Order.DELIVERED]
  | Order.DELIVERED => []
  | Order.CANCELLED => []
  end.

(** [array.includes(status)] *)
Definition includes (l : list Order.status_t) (s : Order.status_t) : bool :=
  existsb (Order.status_eqb s) l.

(** The JSON answer: HTTP code, [status] and [message]. *)
Record Response := mkResponse {
  res_code : Z;
  res_status : string;
  res_message : string
}.

Definition updateOrderStatus (orderId : nat) (status : Order.status_t)
  : M Response :=
  found <- gets (fun db => orders db !! orderId) ;;
  match found with
  | None => ret (mkResponse 404 "error" "Order not found")
  | Some order =>
      if negb (includes (validTransitions (Order.status order)) status) then
        ret (mkResponse 400 "error"
               ("Invalid status transition from "
                +:+ Order.status_str (Order.status order)
                +:+ " to " +:+ Order.status_str status))
      else
        modify (setOrders (alter (Order.setStatus status) orderId)) ;;
        ret (mkResponse 200 "success" "Order status updated successfully")
  end.

(** ** The cart model ([models/Cart.js]) and the cart router

    The cart routes that read nothing from the request body: GET
    /api/cart, DELETE /api/cart/items/:productId and DELETE /api/cart.
    The route parameter [productId] is the text of the URL as it came; the
    model compares it with [item.productId.toString()]. *)

(** [ObjectId.prototype.toString()]: the 24 hexadecimal digits of the id,
    in lower case. *)
Definition hexDigit (d : N) : Ascii.ascii :=
  nth (N.to_nat d) (String.list_ascii_of_string "0123456789abcdef")
      (Ascii.ascii_of_nat 48).

Fixpoint hexFrom (n : nat) (x : N) : string :=
  match n with
  | O => EmptyString
  | S n' => String (hexDigit ((x / 16 ^ N.of_nat n') mod 16)) (hexFrom n' x)
  end.

Definition ObjectId_toString (id : ObjectId) : string := hexFrom 24 id.

(** The pattern [/^[0-9a-fA-F]{24}$/] of [productIdParamSchema]. *)
Definition isHexChar (c : Ascii.ascii) : bool :=
  let n := Ascii.nat_of_ascii c in
  ((48 <=? n) && (n <=? 57) || (97 <=? n) && (n <=? 102)
   || (65 <=? n) && (n <=? 70))%nat.

Definition isObjectIdString (s : string) : bool :=
  (String.length s =? 24)%nat
  && forallb isHexChar (String.list_ascii_of_string s).

(** [cartSchema.pre('save')]: the totals, over the lines whose product is
    found. *)
Definition Cart_preSave (db : DB) (items : list Cart.item) : Cart.t :=
  match items with
  | [] => Cart.mk items 0 0
  | _ =>
      let totals :=
        foldl (fun acc item =>
                 match products db !! Cart.productId item with
                 | Some product =>
                     (fst acc + Product.price product * Cart.quantity item,
                      snd acc + Cart.quantity item)
                 | None => acc
                 end) (0, 0) items in
      Cart.mk items (snd totals) (fst totals)
  end.

(** The validators of [cartItemSchema] ([quantity] at least 1 and at most
    100) on the lines of a cart whose [items] were assigned. *)
Definition Cart_validate (items : list Cart.item) : list string :=
  concat (imap (fun i item =>
                  failing [ ((1 <=? Cart.quantity item)
                             && (Cart.quantity item <=? 100),
                             "items." +:+ pretty i +:+ ".quantity") ])
               items).

(** [this.save()] on the cart of [uid] once a method has assigned [items]:
    validation, then [pre('save')], then the write; answers the document
    as saved. *)
Definition Cart_save (uid : ObjectId) (items : list Cart.item) : M Cart.t :=
  match Cart_validate items with
  | [] =>
      saved <- gets (fun db => Cart_preSave db items) ;;
      modify (setCarts (insert uid saved)) ;;
      ret saved
  | paths => throw (ValidationError "Cart" paths)
  end.

(** [cartSchema.methods.removeItem], up to the save:
    [this.items.filter(item => item.productId.toString() !==
    productId.toString())]. *)
Definition Cart_removeItem (items : list Cart.item) (productId : string)
  : list Cart.item :=
  List.filter
    (fun item =>
       negb (String.eqb (ObjectId_toString (Cart.productId item)) productId))
    items.

(** One line of the cart in a response. *)
Record CartLine := mkCartLine {
  line_productId : ObjectId;
  line_productName : string;
  line_productPrice : Z;
  line_quantity : Z;
  line_subtotal : Z
}.

(** The JSON answer of a cart route: HTTP code, [status], [message] if
    there is one and, on success, the cart as shown.  An error passed to
    [next] is an exception of the handler. *)
Inductive CartReply :=
| CartJson (code : Z) (status : string) (message : option string)
           (shown : option (list CartLine * Z * Z)).

(** [cart.items.map(item => ({ productId: item.productId._id, ... }))] on the
    populated lines: a line whose product is gone has [null] for
    [item.productId]. *)
Fixpoint Cart_showLines (db : DB) (items : list Cart.item)
  : option (list CartLine) :=
  match items with
  | [] => Some []
  | item :: rest =>
      match products db !! Cart.productId item with
      | None => None
      | Some product =>
          match Cart_showLines db rest with
          | None => None
          | Some lines =>
              Some (mkCartLine (Cart.productId item) (Product.name product)
                      (Product.price product) (Cart.quantity item)
                      (Product.price product * Cart.quantity item) :: lines)
          end
      end
  end.

(** The 200 answer with the populated cart, or the TypeError of the map. *)
Definition Cart_respond (message : option string) (cart : Cart.t)
  : M CartReply :=
  lines <- gets (fun db => Cart_showLines db (Cart.items cart)) ;;
  match lines with
  | Some lines =>
      ret (CartJson 200 "success" message
             (Some (lines, Cart.totalItems cart, Cart.totalAmount cart)))
  | None => throw TypeError
  end.

Definition cartError (code : Z) (message : string) : CartReply :=
  CartJson code "error" (Some message) None.

(** [Cart.create({ userId })] *)
Definition Cart_create (uid : ObjectId) : M Cart.t :=
  modify (setCarts (insert uid Cart.cleared)) ;;
  ret Cart.cleared.

(** GET /api/cart *)
Definition getCart (user : User) : M CartReply :=
  found <- gets (fun db => carts db !! user_id user) ;;
  cart <- match found with
          | Some cart => ret cart
          | None => Cart_create (user_id user)
          end ;;
  Cart_respond None cart.

(** DELETE /api/cart/items/:productId, behind
    [validate(productIdParamSchema, 'params')]. *)
Definition deleteCartItem (user : User) (productId : string) : M CartReply :=
  if negb (isObjectIdString productId) then
    ret (cartError 400 "Invalid product ID format")
  else
    found <- gets (fun db => carts db !! user_id user) ;;
    match found with
    | None => ret (cartError 404 "Cart not found")
    | Some cart =>
        saved <- Cart_save (user_id user)
                   (Cart_removeItem (Cart.items cart) productId) ;;
        Cart_respond (Some "Item removed from cart successfully") saved
    end.

(** DELETE /api/cart: [clearCart] and the fixed answer. *)
Definition deleteCart (user : User) : M CartReply :=
  found <- gets (fun db => carts db !! user_id user) ;;
  match found with
  | None => ret (cartError 404 "Cart not found")
  | Some cart =>
      Cart_save (user_id user) [] ;;
      ret (CartJson 200 "success" (Some "Cart cleared successfully")
             (Some ([], 0, 0)))
  end.

(** ** The orders router before [runWithTransaction]
    ([routes/products.js], lines 175 to 518)

    The earlier version of the router runs every callback inside
    [session.withTransaction] and has no fallback. *)

(** [session.withTransaction(callback)]: an exception aborts the
    transaction and is rethrown. *)
Definition withTransaction {A} (callback : M A) : M A :=
  fun db =>
    match callback db with
    | (Ok a, db') => (Ok a, db')
    | (Throw e, db') => (Throw e, abortTransaction db db')
    end.

Definition checkoutEarlier dep (user : User) (body : CheckoutBody)
    (now : Z) (rnd : string) : M (nat * Order.t) :=
  withTransaction
    (cart <- Cart_findOne (user_id user) ;;
     match cart with
     | None => throw (AppError "Cart is empty" 400)
     | Some cartItems =>
         if (length cartItems =? 0)%nat then
           throw (AppError "Cart is empty" 400)
         else
           validated <- validateItems cartItems [] 0 ;;
           (* Order.create([{ ... }], { session }) *)
           order <- Order_save dep (Some TxnSession) now rnd
                      (newOrder user body now validated) ;;
           for_of cartItems (fun cartItem =>
             Product_inc dep (Some TxnSession) (pi_id cartItem) 0
                         (pi_quantity cartItem)) ;;
           Cart_clear dep (Some TxnSession) (user_id user) ;;
           ret order
     end).

Definition payEarlier dep (user : User) (orderId : nat) (now : Z)
    (paymentSuccess : bool) (rnd : string) : M PayResult :=
  withTransaction
    (found <- Order_findById dep (Some TxnSession) orderId ;;
     match found with
     | None => throw (AppError "Order not found" 404)
     | Some order =>
         if negb (Order.userId order =? user_id user)%N then
           throw (AppError "Unauthorized access to order" 403)
         else if negb (Order.status_eqb (Order.status order)
                                        Order.PENDING_PAYMENT) then
           throw (AppError "Order is not in pending payment status" 400)
         else if Order.isExpired now order then
           Order_saveStatus dep (Some TxnSession) orderId Order.CANCELLED ;;
           for_of (Order.items order) (fun item =>
             Product_inc dep (Some TxnSession) (Order.productId item) 0
                         (- Order.quantity item)) ;;
           throw (AppError "Order has expired and been cancelled" 400)
         else if negb paymentSuccess then
           (* Payment.create([{ ... }], { session }) *)
           Payment_save dep (Some TxnSession) now rnd
             (newFailedPayment orderId order) ;;
           throw (AppError "Payment failed. Please try again." 400)
         else
           payment <- Payment_save dep (Some TxnSession) now rnd
                        (newSuccessPayment orderId order now) ;;
           Order_saveStatus dep (Some TxnSession) orderId Order.PAID ;;
           for_of (Order.items order) (fun item =>
             Product_inc dep (Some TxnSession) (Order.productId item)
                         (- Order.quantity item) (- Order.quantity item)) ;;
           addEmailJob (mkEmailJob orderId (user_email user) (user_name user)
                          (Order.orderNumber order)
                          (Order.totalAmount order)) ;;
           ret (mkPayResult orderId (Order.orderNumber order) Order.PAID
                  (Order.totalAmount order) payment)
     end).

Definition sweepEarlier dep (now : Z) : M unit :=
  logErrors
    (found <- gets (expiredOrders now) ;;
     for_of found (fun e =>
       logErrors
         (withTransaction
            (Order_saveStatus dep (Some TxnSession) (fst e) Order.CANCELLED ;;
             for_of (Order.items (snd e)) (fun item =>
               Product_inc dep (Some TxnSession) (Order.productId item) 0
                           (- Order.quantity item)))))).

(** ** Listing orders (GET /api/orders and GET /api/admin/orders)

    [Order.find(filter).sort(sortObj).skip(skip).limit(limit)] together
    with [Order.countDocuments(filter)].  [sorted] is the order that
    [sortObj] puts the matching documents in; [page] and [limit] are the
    numbers [parseInt] reads from the query; [paginationSchema] admits
    only values of at least 1 for both, and the listing is read for such
    values only (a [page] of 0 would make [skip] negative).  The fields
    that [populate] adds for display are left out. *)

Record Pagination := mkPagination {
  currentPage : nat;
  totalPages : nat;
  totalItems : nat;
  itemsPerPage : nat
}.

(** [Math.ceil(total / limit)] *)
Definition ceilDiv (total limit : nat) : nat :=
  if (total mod limit =? 0)%nat then (total / limit)%nat
  else S (total / limit).

Definition findOrders (filter : Order.t -> bool)
    (sorted : list (nat * Order.t) -> list (nat * Order.t))
    (page limit : nat) (db : DB) : list (nat * Order.t) * Pagination :=
  let matching := List.filter (fun e => filter (snd e)) (imap pair (orders db)) in
  let skip := ((page - 1) * limit)%nat in
  (take limit (drop skip (sorted matching)),
   mkPagination page (ceilDiv (length matching) limit) (length matching) limit).

(** The filter of GET /api/orders: the caller's orders, of the status asked
    for if any. *)
Definition userFilter (user : User) (status : option Order.status_t)
    (o : Order.t) : bool :=
  (Order.userId o =? user_id user)%N
  && match status with
     | Some s => Order.status_eqb (Order.status o) s
     | None => true
     end.

Definition getOrders (user : User) (status : option Order.status_t) :=
  findOrders (userFilter user status).

(** The filter of GET /api/admin/orders. *)
Definition adminFilter (status : option Order.status_t)
    (userId : option ObjectId) (o : Order.t) : bool :=
  match status with
  | Some s => Order.status_eqb (Order.status o) s
  | None => true
  end
  && match userId with
     | Some uid => (Order.userId o =? uid)%N
     | None => true
     end.

Definition adminGetOrders (status : option Order.status_t)
    (userId : option ObjectId) :=
  findOrders (adminFilter status userId).

(** ** The revenue of the dashboard (GET /api/admin/dashboard)

    [Order.aggregate([{ $match: { status: { $in: ['PAID', 'SHIPPED',
    'DELIVERED'] } } }, { $group: { _id: null, total: { $sum:
    '$totalAmount' } } }])] and [totalRevenue.length > 0 ?
    totalRevenue[0].total : 0]. *)
Definition countsAsRevenue (s : Order.status_t) : bool :=
  match s with
  | Order.PAID | Order.SHIPPED | Order.DELIVERED => true
  | _ => false
  end.

Definition aggregateRevenue (db : DB) : list Z :=
  match List.filter (fun o => countsAsRevenue (Order.status o)) (orders db) with
  | [] => []
  | matched => [foldl (fun total o => total + Order.totalAmount o) 0 matched]
  end.

Definition dashboardRevenue (db : DB) : Z :=
  match aggregateRevenue db with
  | total :: _ => total
  | [] => 0
  end.

(** ** The order detail (GET /api/orders/:id and GET /api/admin/orders/:id)

    [Payment.findOne({ orderId: order._id })] gives the first payment
    recorded for the order.  The product fields that [populate] adds for
    display are left out. *)
Definition Payment_findOne (orderId : nat) (db : DB) : option Payment.t :=
  List.find (fun p => (Payment.orderId p =? orderId)%nat) (payments db).

Inductive OrderDetail :=
| OrderDetailError (code : Z) (message : string)
| OrderDetailJson (order : Order.t) (payment : option Payment.t).

Definition getOrder (user : User) (orderId : nat) (db : DB) : OrderDetail :=
  match orders db !! orderId with
  | None => OrderDetailError 404 "Order not found"
  | Some order =>
      if negb (Order.userId order =? user_id user)%N then
        OrderDetailError 403 "Unauthorized access to order"
      else OrderDetailJson order (Payment_findOne orderId db)
  end.

Definition adminGetOrder (orderId : nat) (db : DB) : OrderDetail :=
  match orders db !! orderId with
  | None => OrderDetailError 404 "Order not found"
  | Some order => OrderDetailJson order (Payment_findOne orderId db)
  end.
(** * Specification vocabulary *)

(** The legal transitions as the state machine of the design lists them. *)
Definition legalTransition (current requested : Order.status_t) : bool :=
  match current, requested with
  | Order.PENDING_PAYMENT, Order.PAID
  | Order.PENDING_PAYMENT, Order.CANCELLED
  | Order.PAID, Order.SHIPPED
  | Order.PAID, Order.CANCELLED
  | Order.SHIPPED, Order.DELIVERED => true
  | _, _ => false
  end.

Definition invalidTransitionMessage (current requested : Order.status_t)
  : string :=
  "Invalid status transition from " +:+ Order.status_str current
  +:+ " to " +:+ Order.status_str requested.

(** A session can be used: there is none, or the server supports
    transactions. *)
Definition sessionOk (dep : Deployment) (session : option ClientSession)
  : Prop :=
  match session, dep with
  | Some _, Standalone => False
  | _, _ => True
  end.

(** The net effect of a loop of [$inc] updates, one per element of [xs],
    on the product collection. *)
Definition incAll {A} (g : A -> ObjectId) (ds dr : A -> Z) (xs : list A)
    (m : gmap N Product.t) : gmap N Product.t :=
  foldl (fun m x => alter (Product.inc (ds x) (dr x)) (g x) m) m xs.

(** The sum of [f] over the elements of [xs] that refer to product [p]. *)
Definition sumFor {A} (g : A -> ObjectId) (f : A -> Z) (p : ObjectId)
    (xs : list A) : Z :=
  foldr (fun x acc => (if decide (g x = p) then f x else 0) + acc) 0 xs.

(** ** Sample data *)

Definition sampleAddress : Order.address :=
  Order.mkAddress "123 Test St" "Test City" "TS" "12345" "Test Country".

Definition sampleOrder (s : Order.status_t) : Order.t :=
  Order.mk 7%N "ORD-1000-ABC"
    [Order.mkItem 1%N 3 9999 "Wireless Bluetooth Headphones"] 29997 s
    sampleAddress Order.CREDIT_CARD None 901000.

Definition sampleProduct (stock reserved : Z) : Product.t :=
  Product.mk "Wireless Bluetooth Headphones" 9999 stock reserved true.

(** One product with 50 units of which 3 are reserved by the single order. *)
Definition sampleDB (s : Order.status_t) : DB :=
  mkDB {[ 1%N := sampleProduct 50 3 ]} [sampleOrder s] [] ∅ [].

(** ** Checkout *)

(** [totalAmount] as the sum of the line subtotals, in line order. *)
Definition orderTotal (items : list Order.item) : Z :=
  foldl (fun t i => t + Order.priceAtPurchase i * Order.quantity i) 0 items.

(** A cart line can be reserved: its product is stored, active and has the
    quantity available. *)
Definition reservable (db : DB) (it : Cart.item) : bool :=
  match products db !! Cart.productId it with
  | Some p => Product.isActive p
              && (Cart.quantity it <=? Product.availableStock p)
  | None => false
  end.

(** The first cart line that cannot be reserved, if any. *)
Definition firstOffender (db : DB) (items : list Cart.item)
  : option Cart.item :=
  List.find (fun it => negb (reservable db it)) items.

(** What the validation loop throws at a line that cannot be reserved. *)
Definition lineError (db : DB) (it : Cart.item) : Exn :=
  match products db !! Cart.productId it with
  | None => TypeError
  | Some p =>
      if Product.isActive p then
        AppError ("Insufficient stock for " +:+ Product.name p
                  +:+ ". Available: "
                  +:+ pretty (Product.availableStock p)) 400
      else
        AppError ("Product " +:+ Product.name p
                  +:+ " is no longer available") 400
  end.

(** The order lines frozen from the cart lines whose product is stored. *)
Definition frozenLines (db : DB) (items : list Cart.item) : list Order.item :=
  omap (fun it => (fun p => orderItemOf (Cart.productId it) p
                                        (Cart.quantity it))
                  <$> products db !! Cart.productId it) items.

(** The document that checkout builds from a cart and hands to [save]. *)
Definition checkoutDocument (user : User) (body : CheckoutBody) (now : Z)
    (db : DB) (cart : Cart.t) : Order.t :=
  newOrder user body now
    (frozenLines db (Cart.items cart),
     orderTotal (frozenLines db (Cart.items cart))).

(** Checkout cannot go through: no cart, an empty cart, or a line that
    cannot be reserved. *)
Definition checkoutBlocked (db : DB) (uid : ObjectId) : bool :=
  match carts db !! uid with
  | None => true
  | Some cart =>
      match Cart.items cart with
      | [] => true
      | items => negb (forallb (reservable db) items)
      end
  end.

Definition sampleUser : User := mkUser 7%N "test@example.com" "Test User".

Definition sampleBody : CheckoutBody :=
  mkCheckoutBody sampleAddress Order.CREDIT_CARD None.

Definition sampleCart (quantity : Z) : Cart.t :=
  Cart.mk [Cart.mkItem 1%N quantity] quantity (9999 * quantity).

(** One product with 50 units, none reserved, no order yet, and the cart
    of the sample user asking for [quantity] units. *)
Definition cartDB (quantity : Z) : DB :=
  mkDB {[ 1%N := sampleProduct 50 0 ]} [] [] {[ 7%N := sampleCart quantity ]} [].

(** ** Payment and expiry *)

(** The store after the reservation of [order] was released and the order
    cancelled. *)
Definition cancelledStore (orderId : nat) (order : Order.t) (db : DB) : DB :=
  Build_DB (incAll Order.productId (fun _ => 0) (fun i => - Order.quantity i)
              (Order.items order) (products db))
           (alter (Order.setStatus Order.CANCELLED) orderId (orders db))
           (payments db) (carts db) (emailJobs db) (emailQueue db).

(** The document that pay builds for the attempt and hands to [save]. *)
Definition paymentDocument (orderId : nat) (order : Order.t) (now : Z)
    (paymentSuccess : bool) : Payment.t :=
  if paymentSuccess then newSuccessPayment orderId order now
  else newFailedPayment orderId order.

(** The quantity an order holds of product [id]. *)
Definition orderedOf (id : ObjectId) (order : Order.t) : Z :=
  sumFor Order.productId Order.quantity id (Order.items order).

(** As [sampleDB], with only 2 of the 3 ordered units still reserved. *)
Definition overReleaseDB : DB :=
  mkDB {[ 1%N := sampleProduct 50 2 ]} [sampleOrder Order.PENDING_PAYMENT]
       [] ∅ [].

(** ** Interleaving at the sweeper's [await]

    The sweeper loads the expired orders and only then, one [await] later,
    starts cancelling them.  [between] is a request handler that the event
    loop runs to completion in that gap. *)
Definition sweepInterleaved dep (now : Z) (between : M unit) : M unit :=
  logErrors
    (found <- gets (expiredOrders now) ;;
     logErrors between ;;
     for_of found (cancelExpiredOrder dep)).

(** A pay request whose answer is of no interest here. *)
Definition payRequest dep (user : User) (orderId : nat) (now : Z)
    (paymentSuccess : bool) (rnd : string) : M unit :=
  pay dep user orderId now paymentSuccess rnd ;; ret tt.

(** ** The inventory invariant *)

(** [0 <= reservedStock <= stock], that is [availableStock >= 0] with a
    non-negative reservation, for every stored product. *)
Definition inventoryOk (db : DB) : Prop :=
  map_Forall (fun _ p => 0 <= Product.reservedStock p <= Product.stock p)
             (products db).

(** The operations of the subsystem, each run to completion; [SetCart]
    stands for the cart routes, whose writes all go to the cart of the
    caller, and [AdminUpdate] is the admin status update. *)
Inductive operation :=
| SetCart (uid : ObjectId) (cart : Cart.t)
| Checkout (dep : Deployment) (user : User) (body : CheckoutBody) (now : Z)
           (rnd : string)
| Pay (dep : Deployment) (user : User) (orderId : nat) (now : Z)
      (paymentSuccess : bool) (rnd : string)
| Sweep (dep : Deployment) (now : Z)
| AdminUpdate (orderId : nat) (status : Order.status_t).

Definition run (o : operation) (db : DB) : DB :=
  match o with
  | SetCart uid cart => setCarts (insert uid cart) db
  | Checkout dep user body now rnd => snd (checkout dep user body now rnd db)
  | Pay dep user orderId now paymentSuccess rnd =>
      snd (pay dep user orderId now paymentSuccess rnd db)
  | Sweep dep now => snd (sweep dep now db)
  | AdminUpdate orderId status => snd (updateOrderStatus orderId status db)
  end.

Inductive reachable (db0 : DB) : DB -> Prop :=
| reachable_init : reachable db0 db0
| reachable_step db o :
    reachable db0 db -> reachable db0 (run o db).

(** The quantity of product [id] an order still holds in reserve. *)
Definition heldBy (id : ObjectId) (o : Order.t) : Z :=
  if Order.status_eqb (Order.status o) Order.PENDING_PAYMENT
  then orderedOf id o else 0.

(** The quantity of product [id] held by all pending orders. *)
Definition pendingOf (id : ObjectId) (os : list Order.t) : Z :=
  foldr (fun o acc => heldBy id o + acc) 0 os.

(** The ledger is consistent: every reservation of a pending order is
    counted in [reservedStock], which never exceeds [stock], and no order
    line has a negative quantity. *)
Definition ledgerOk (db : DB) : Prop :=
  map_Forall (fun id p => pendingOf id (orders db) <= Product.reservedStock p
                          /\ Product.reservedStock p <= Product.stock p)
             (products db)
  /\ Forall (fun o => Forall (fun i => 0 <= Order.quantity i) (Order.items o))
            (orders db).

(** ** Further vocabulary for the orders router *)

(** Why pay refuses an order before it comes to the payment itself. *)
Definition payRefusal (db : DB) (user : User) (orderId : nat) : option Exn :=
  match orders db !! orderId with
  | None => Some (AppError "Order not found" 404)
  | Some order =>
      if negb (Order.userId order =? user_id user)%N then
        Some (AppError "Unauthorized access to order" 403)
      else
        match Order.status order with
        | Order.PENDING_PAYMENT => None
        | Order.PAID => Some (AppError "Order has already been paid" 400)
        | Order.CANCELLED => Some (AppError "Order has been cancelled" 400)
        | Order.SHIPPED => Some (AppError "Order has already been shipped" 400)
        | Order.DELIVERED =>
            Some (AppError "Order has already been delivered" 400)
        end
  end.

(** What a sweep at [now] makes of one order. *)
Definition sweptOrder (now : Z) (o : Order.t) : Order.t :=
  if Order.isExpired now o then Order.setStatus Order.CANCELLED o else o.

(** The quantity of product [id] held by the orders a sweep at [now]
    cancels. *)
Definition releasedBySweep (now : Z) (id : ObjectId) (os : list Order.t) : Z :=
  foldr (fun o acc => (if Order.isExpired now o then orderedOf id o else 0)
                      + acc) 0 os.

(** The statuses an order can come to from [s] along legal transitions. *)
Definition lifecycleReaches (s s' : Order.status_t) : bool :=
  match s, s' with
  | Order.PENDING_PAYMENT, _ => true
  | Order.PAID, Order.PENDING_PAYMENT => false
  | Order.PAID, _ => true
  | Order.SHIPPED, Order.SHIPPED | Order.SHIPPED, Order.DELIVERED => true
  | Order.DELIVERED, Order.DELIVERED => true
  | Order.CANCELLED, Order.CANCELLED => true
  | _, _ => false
  end.

(** ** Vocabulary for the cart router *)

(** The requests of the cart router that are embedded. *)
Inductive cartRequest :=
| GetCart (user : User)
| DeleteCartItem (user : User) (productId : string)
| DeleteCart (user : User).

Definition requester (r : cartRequest) : User :=
  match r with
  | GetCart user | DeleteCartItem user _ | DeleteCart user => user
  end.

Definition serve (r : cartRequest) : M CartReply :=
  match r with
  | GetCart user => getCart user
  | DeleteCartItem user productId => deleteCartItem user productId
  | DeleteCart user => deleteCart user
  end.

(** A stored cart line as the schemas have it: a quantity from 1 to 100
    and an id of 96 bits. *)
Definition lineOk (it : Cart.item) : Prop :=
  1 <= Cart.quantity it <= 100 /\ (Cart.productId it < 2 ^ 96)%N.

(** Every line of the cart refers to a stored product. *)
Definition allStored (db : DB) (items : list Cart.item) : bool :=
  forallb (fun it => bool_decide (is_Some (products db !! Cart.productId it)))
          items.

(** The lines that do not refer to product [oid]. *)
Definition linesWithout (oid : ObjectId) (items : list Cart.item)
  : list Cart.item :=
  List.filter (fun it => negb (Cart.productId it =? oid)%N) items.

(** The cart of the sample user holds 3 units of product 10, which is in
    stock. *)
Definition tenDB : DB :=
  mkDB {[ 10%N := sampleProduct 50 0 ]} [] []
       {[ 7%N := Cart.mk [Cart.mkItem 10%N 3] 3 29997 ]} [].

(** As [tenDB], the product of the cart having been deleted since. *)
Definition danglingDB : DB :=
  mkDB ∅ [] [] {[ 7%N := Cart.mk [Cart.mkItem 10%N 3] 3 29997 ]} [].

(** ** Vocabulary for listings and the dashboard *)

(** The orders that match a filter, with their ids, in collection order. *)
Definition matchingOrders (filter : Order.t -> bool) (db : DB)
  : list (nat * Order.t) :=
  List.filter (fun e => filter (snd e)) (imap pair (orders db)).

(** The revenue as a sum over the order collection. *)
Definition revenueOf (os : list Order.t) : Z :=
  foldr (fun o acc => (if countsAsRevenue (Order.status o)
                       then Order.totalAmount o else 0) + acc) 0 os.

(** * Properties *)

(** ** Status values *)

Lemma status_eqb_eq (a b : Order.status_t) :
  Order.status_eqb a b = true <-> a = b.
Proof. destruct a, b; simpl; split; intros H; try reflexivity; discriminate. Qed.

Lemma status_eqb_refl (a : Order.status_t) : Order.status_eqb a a = true.
Proof. by destruct a. Qed.

Lemma includes_validTransitions (current requested : Order.status_t) :
  includes (validTransitions current) requested
  = legalTransition current requested.
Proof. by destruct current, requested. Qed.

(** ** The admin status update *)



(** C10.  The admin status update is a pure status write: whatever the
    order and the requested status, the product collection (every [stock]
    and [reservedStock]), the payments, the carts and the e-mail queue come
    out as they went in, and the order collection is either untouched or
    differs in the [status] of the addressed order only.  So cancelling a
    pending order this way releases nothing and marking it paid commits
    nothing. *)
Theorem updateOrderStatus_frame
    (db : DB) (orderId : nat) (requested : Order.status_t) :
  let db' := snd (updateOrderStatus orderId requested db) in
  products db' = products db
  /\ payments db' = payments db
  /\ carts db' = carts db
  /\ emailJobs db' = emailJobs db
  /\ (orders db' = orders db
      \/ orders db' = alter (Order.setStatus requested) orderId (orders db)).
Proof.
  unfold updateOrderStatus, bind, gets, ret, modify; simpl.
  destruct (orders db !! orderId) as [order|]; simpl; [|by auto 10].
  destruct (includes _ _); simpl; by auto 10.
Qed.

(** ** The monad, sessions and transactions *)

Lemma abortTransaction_same (db : DB) : abortTransaction db db = db.
Proof. by destruct db. Qed.

Lemma withSession_ok dep session db :
  sessionOk dep session -> withSession dep session db = (Ok tt, db).
Proof. by destruct session, dep. Qed.

Lemma withSession_refused s db :
  withSession Standalone (Some s) db = (Throw ReplicaSetRequired, db).
Proof. reflexivity. Qed.

Lemma sessionOk_ReplicaSet session : sessionOk ReplicaSet session.
Proof. by destruct session. Qed.

Lemma sessionOk_None dep : sessionOk dep None.
Proof. by destruct dep. Qed.

#[local] Hint Resolve sessionOk_ReplicaSet sessionOk_None : core.

(** ** Loops of [$inc] updates *)

Lemma inc_inc a b c d (p : Product.t) :
  Product.inc a b (Product.inc c d p) = Product.inc (c + a) (d + b) p.
Proof. destruct p; unfold Product.inc; simpl. f_equal; lia. Qed.

Lemma inc_zero (p : Product.t) : Product.inc 0 0 p = p.
Proof. destruct p; unfold Product.inc; simpl. f_equal; lia. Qed.

Lemma for_of_Product_inc {A} dep session (g : A -> ObjectId) (ds dr : A -> Z)
    (xs : list A) (db : DB) :
  sessionOk dep session ->
  for_of xs (fun x => Product_inc dep session (g x) (ds x) (dr x)) db
  = (Ok tt, setProducts (incAll g ds dr xs) db).
Proof.
  intros Hs. revert db. induction xs as [|x xs IH]; intros db.
  - by destruct db.
  - simpl. unfold bind at 1. unfold Product_inc at 1, bind at 1.
    rewrite withSession_ok by done. unfold modify. rewrite IH.
    by destruct db.
Qed.

Lemma lookup_incAll {A} (g : A -> ObjectId) (ds dr : A -> Z) (xs : list A)
    (m : gmap N Product.t) (p : ObjectId) :
  incAll g ds dr xs m !! p
  = Product.inc (sumFor g ds p xs) (sumFor g dr p xs) <$> m !! p.
Proof.
  revert m. induction xs as [|x xs IH]; intros m; simpl.
  - destruct (m !! p) as [q|]; simpl; [|done]. by rewrite inc_zero.
  - unfold incAll in *. simpl. rewrite IH, lookup_alter.
    destruct (decide (g x = p)) as [->|Hne].
    + destruct (m !! p) as [q|]; simpl; [|done].
      rewrite inc_inc. do 2 f_equal; lia.
    + destruct (m !! p) as [q|]; simpl; [|done].
      do 2 f_equal; lia.
Qed.

Lemma sumFor_zero {A} (g : A -> ObjectId) (p : ObjectId) (xs : list A) :
  sumFor g (fun _ => 0) p xs = 0.
Proof.
  induction xs as [|x xs IH]; simpl; [done|].
  rewrite IH. by destruct (decide _).
Qed.

Lemma sumFor_opp {A} (g : A -> ObjectId) (f : A -> Z) (p : ObjectId)
    (xs : list A) :
  sumFor g (fun x => - f x) p xs = - sumFor g f p xs.
Proof.
  induction xs as [|x xs IH]; simpl; [done|].
  rewrite IH. destruct (decide _); lia.
Qed.

Lemma sumFor_nonneg {A} (g : A -> ObjectId) (f : A -> Z) (p : ObjectId)
    (xs : list A) :
  Forall (fun x => 0 <= f x) xs -> 0 <= sumFor g f p xs.
Proof.
  induction 1 as [|x xs Hx _ IH]; simpl; [done|].
  destruct (decide _); lia.
Qed.

(** ** Checkout *)

Lemma orderTotal_from t items :
  foldl (fun t i => t + Order.priceAtPurchase i * Order.quantity i) t items
  = t + orderTotal items.
Proof.
  unfold orderTotal. revert t.
  induction items as [|i items IH]; intros t; simpl; [lia|].
  rewrite IH, (IH (0 + _)). lia.
Qed.

(** The validation loop, run on the populated lines of a cart: it stops at
    the first line that cannot be reserved, and otherwise returns the frozen
    lines in cart order with the sum of their subtotals.  It never writes. *)
Lemma validateItems_run db items orderItems totalAmount db' :
  validateItems (map (populate db) items) orderItems totalAmount db'
  = match firstOffender db items with
    | Some it => (Throw (lineError db it), db')
    | None =>
        (Ok ((orderItems ++ frozenLines db items)%list,
             totalAmount + orderTotal (frozenLines db items)), db')
    end.
Proof.
  revert orderItems totalAmount.
  induction items as [|it items IH]; intros orderItems totalAmount.
  - simpl. unfold ret, orderTotal. simpl. by rewrite app_nil_r, Z.add_0_r.
  - assert (firstOffender db (it :: items)
            = if reservable db it then firstOffender db items else Some it)
      as -> by (unfold firstOffender; simpl; by destruct (reservable db it)).
    assert (frozenLines db (it :: items)
            = match products db !! Cart.productId it with
              | Some p => orderItemOf (Cart.productId it) p (Cart.quantity it)
                          :: frozenLines db items
              | None => frozenLines db items
              end) as ->
        by (unfold frozenLines; simpl; by destruct (products db !! _)).
    unfold reservable, lineError.
    cbn [map validateItems populate pi_product pi_quantity pi_id].
    destruct (products db !! Cart.productId it) as [p|] eqn:Hp;
      [|by rewrite Hp].
    destruct (Product.isActive p) eqn:Hact; cbn [negb andb];
      [|by rewrite Hp, Hact].
    rewrite Z.leb_antisym.
    destruct (Product.availableStock p <? Cart.quantity it); cbn [negb];
      [by rewrite Hp, Hact|].
    rewrite IH. destruct (firstOffender db items); [done|].
    rewrite <- app_assoc. cbn [app].
    unfold orderTotal at 2. cbn [foldl]. rewrite orderTotal_from.
    f_equal. f_equal. f_equal. unfold orderItemOf. cbn. lia.
Qed.

Lemma lineError_not_replica_error db it :
  isReplicaSetError (lineError db it) = false.
Proof.
  unfold lineError. destruct (products db !! _) as [p|]; [|done].
  by destruct (Product.isActive p).
Qed.

Lemma firstOffender_None db items :
  firstOffender db items = None <-> forallb (reservable db) items = true.
Proof.
  unfold firstOffender. induction items as [|it items IH]; simpl; [done|].
  destruct (reservable db it); simpl; [done|]. split; discriminate.
Qed.

Lemma firstOffender_Some db items it :
  firstOffender db items = Some it ->
  it ∈ items /\ reservable db it = false.
Proof.
  unfold firstOffender. intros H. apply find_some in H as [Hin Hneg].
  split; [by apply list_elem_of_In|]. by destruct (reservable db it).
Qed.

(** ** Saving a new document *)

(** A new order that was given no [orderNumber] fails the [required]
    validator of that path, whatever else it holds. *)
Lemma Order_validate_new (o : Order.t) :
  Order.orderNumber o = EmptyString ->
  exists paths, Order_validate o = "orderNumber" :: paths.
Proof. intros H. unfold Order_validate. rewrite H. simpl. eauto. Qed.

Lemma Payment_validate_new (p : Payment.t) :
  Payment.transactionId p = EmptyString ->
  exists paths, Payment_validate p = "transactionId" :: paths.
Proof.
  intros H. unfold Payment_validate, failing.
  cbn [List.filter fst snd]. rewrite H. simpl. eauto.
Qed.

(** Such a document is rejected before anything is written, with or
    without a session and in either deployment. *)
Lemma Order_save_new dep session now rnd (o : Order.t) (db : DB) :
  Order.orderNumber o = EmptyString ->
  Order_save dep session now rnd o db
  = (Throw (ValidationError "Order" (Order_validate o)), db).
Proof.
  intros H. unfold Order_save.
  by destruct (Order_validate_new o H) as (paths & ->).
Qed.

Lemma Payment_save_new dep session now rnd (p : Payment.t) (db : DB) :
  Payment.transactionId p = EmptyString ->
  Payment_save dep session now rnd p db
  = (Throw (ValidationError "Payment" (Payment_validate p)), db).
Proof.
  intros H. unfold Payment_save.
  by destruct (Payment_validate_new p H) as (paths & ->).
Qed.

Lemma paymentDocument_new orderId order now paymentSuccess :
  Payment.transactionId (paymentDocument orderId order now paymentSuccess)
  = EmptyString.
Proof. by destruct paymentSuccess. Qed.

(** ** Checkout *)

(** The callback of checkout on a non-empty cart, with or without a
    session: it stops at the first line that cannot be reserved, and at the
    save of the order otherwise. *)
Lemma checkoutCallback_run dep session user body now rnd db cart :
  carts db !! user_id user = Some cart ->
  Cart.items cart <> [] ->
  checkoutCallback dep user body now rnd session db
  = match firstOffender db (Cart.items cart) with
    | Some it => (Throw (lineError db it), db)
    | None =>
        (Throw (ValidationError "Order"
                  (Order_validate (checkoutDocument user body now db cart))),
         db)
    end.
Proof.
  intros Hcart Hne.
  unfold checkoutCallback, bind at 1, Cart_findOne, gets.
  rewrite Hcart. simpl.
  destruct (Cart.items cart) as [|it0 items0] eqn:Hitems; [done|].
  cbn [map length Nat.eqb]. rewrite <- Hitems. clear Hne.
  replace (populate db it0 :: map (populate db) items0)
    with (map (populate db) (Cart.items cart)) by by rewrite Hitems.
  unfold bind at 1. rewrite validateItems_run.
  destruct (firstOffender db (Cart.items cart)); [done|].
  cbn [app Z.add]. unfold bind at 1.
  by rewrite Order_save_new.
Qed.

(** Checkout, in either deployment, as a function of the store. *)
Lemma checkout_run dep user body now rnd db :
  checkout dep user body now rnd db
  = match carts db !! user_id user with
    | None => (Throw (AppError "Cart is empty" 400), db)
    | Some cart =>
        match Cart.items cart with
        | [] => (Throw (AppError "Cart is empty" 400), db)
        | _ =>
            match firstOffender db (Cart.items cart) with
            | Some it => (Throw (lineError db it), db)
            | None =>
                (Throw (ValidationError "Order"
                          (Order_validate
                             (checkoutDocument user body now db cart))),
                 db)
            end
        end
    end.
Proof.
  unfold checkout, runWithTransaction.
  destruct (carts db !! user_id user) as [cart|] eqn:Hcart.
  - destruct (Cart.items cart) as [|it0 items0] eqn:Hitems.
    + unfold checkoutCallback, bind, Cart_findOne, gets.
      rewrite Hcart. simpl. rewrite Hitems. simpl.
      by rewrite abortTransaction_same.
    + assert (Cart.items cart <> []) as Hne by by rewrite Hitems.
      rewrite <- Hitems.
      rewrite !(checkoutCallback_run _ _ _ _ _ _ _ cart) by done.
      destruct (firstOffender db (Cart.items cart)) as [it|] eqn:Hoff.
      * by rewrite lineError_not_replica_error, abortTransaction_same.
      * simpl. by rewrite abortTransaction_same.
  - unfold checkoutCallback, bind, Cart_findOne, gets.
    rewrite Hcart. simpl. by rewrite abortTransaction_same.
Qed.

(** C2.  Checkout does not create the order.  On a non-empty cart whose
    lines can all be reserved (product stored and active, [availableStock
    >= quantity]) the order document is built without an [orderNumber],
    which the schema requires and only the [pre('save')] hook would
    generate; its save is rejected by the validation that precedes the
    hook.  In either deployment the call fails with the validation error,
    which names [orderNumber], and the store is exactly what it was: no
    order in PENDING_PAYMENT, no [reservedStock] raised, the cart not
    cleared. *)
Theorem checkout_rejects_its_own_order
    dep user body now rnd (db : DB) (cart : Cart.t) :
  carts db !! user_id user = Some cart ->
  Cart.items cart <> [] ->
  forallb (reservable db) (Cart.items cart) = true ->
  exists paths,
    checkout dep user body now rnd db
    = (Throw (ValidationError "Order" paths), db)
    /\ "orderNumber" ∈ paths.
Proof.
  intros Hcart Hne Hres. rewrite checkout_run, Hcart.
  destruct (Cart.items cart) as [|it0 items0] eqn:Hitems; [done|].
  rewrite <- Hitems in *.
  apply firstOffender_None in Hres. rewrite Hres.
  destruct (Order_validate_new (checkoutDocument user body now db cart))
    as (paths & ->); [done|].
  eexists. split; [done|]. apply list_elem_of_here.
Qed.

Lemma checkout_rejects_its_own_order_witness :
  checkout ReplicaSet sampleUser sampleBody 1000 "ABC" (cartDB 3)
  = (Throw (ValidationError "Order" ["orderNumber"]), cartDB 3)
  /\ checkout Standalone sampleUser sampleBody 1000 "ABC" (cartDB 3)
     = (Throw (ValidationError "Order" ["orderNumber"]), cartDB 3).
Proof.
  assert (forall dep,
            checkout dep sampleUser sampleBody 1000 "ABC" (cartDB 3)
            = (Throw (ValidationError "Order" ["orderNumber"]), cartDB 3))
    as Hrun; [|by split].
  intros dep.
  destruct (checkout_rejects_its_own_order dep sampleUser sampleBody 1000
              "ABC" (cartDB 3) (sampleCart 3)) as (paths & Hrun & _);
    [reflexivity|discriminate|reflexivity|].
  rewrite Hrun. f_equal.
  assert (fst (checkout dep sampleUser sampleBody 1000 "ABC" (cartDB 3))
          = Throw (ValidationError "Order" ["orderNumber"])) as Hfst
    by (destruct dep; vm_compute; reflexivity).
  rewrite Hrun in Hfst. exact Hfst.
Defined.


(** ** Payment *)

(** The callback of pay where its session can be used: the writes it has
    made by the time it throws.  It never returns: an order that passes
    every check is handed a payment document without [transactionId],
    whose save is rejected. *)
Lemma payCallback_run dep session user orderId now paymentSuccess rnd db :
  sessionOk dep session ->
  payCallback dep user orderId now paymentSuccess rnd session db
  = match orders db !! orderId with
    | None => (Throw (AppError "Order not found" 404), db)
    | Some order =>
        if negb (Order.userId order =? user_id user)%N then
          (Throw (AppError "Unauthorized access to order" 403), db)
        else if Order.isExpired now order then
          (Throw (AppError "Order has expired and been cancelled" 400),
           cancelledStore orderId order db)
        else if negb (Order.status_eqb (Order.status order)
                                       Order.PENDING_PAYMENT) then
          (Throw (AppError (wrongStatusMessage (Order.status order)) 400), db)
        else
          (Throw (ValidationError "Payment"
                    (Payment_validate
                       (paymentDocument orderId order now paymentSuccess))),
           db)
    end.
Proof.
  intros Hs.
  unfold payCallback, bind at 1, Order_findById, bind at 1.
  rewrite withSession_ok by done. unfold gets.
  destruct (orders db !! orderId) as [order|]; [|done].
  destruct (negb (Order.userId order =? user_id user)%N); [done|].
  assert (Order.status_eqb (Order.status order) Order.PENDING_PAYMENT
          && Order.isExpired now order = Order.isExpired now order) as ->.
  { unfold Order.isExpired. by destruct (Order.status_eqb _ _). }
  destruct (Order.isExpired now order).
  { unfold bind at 1, Order_saveStatus, bind at 1.
    rewrite withSession_ok by done. unfold modify, bind at 1.
    rewrite for_of_Product_inc by done. by destruct db. }
  destruct (negb (Order.status_eqb _ _)); [done|].
  destruct paymentSuccess; cbn [negb]; unfold bind at 1;
    by rewrite Payment_save_new.
Qed.

Lemma payCallback_refused s user orderId now paymentSuccess rnd db :
  payCallback Standalone user orderId now paymentSuccess rnd (Some s) db
  = (Throw ReplicaSetRequired, db).
Proof. reflexivity. Qed.

(** Pay as a function of the store.  On a replica set every exception
    thrown by the callback aborts the transaction, and with it the writes
    that preceded the [throw]; on a standalone server they stay. *)
Lemma pay_run dep user orderId now paymentSuccess rnd db :
  pay dep user orderId now paymentSuccess rnd db
  = match orders db !! orderId with
    | None => (Throw (AppError "Order not found" 404), db)
    | Some order =>
        if negb (Order.userId order =? user_id user)%N then
          (Throw (AppError "Unauthorized access to order" 403), db)
        else if Order.isExpired now order then
          (Throw (AppError "Order has expired and been cancelled" 400),
           match dep with
           | ReplicaSet => db
           | Standalone => cancelledStore orderId order db
           end)
        else if negb (Order.status_eqb (Order.status order)
                                       Order.PENDING_PAYMENT) then
          (Throw (AppError (wrongStatusMessage (Order.status order)) 400), db)
        else
          (Throw (ValidationError "Payment"
                    (Payment_validate
                       (paymentDocument orderId order now paymentSuccess))),
           db)
    end.
Proof.
  unfold pay, runWithTransaction. destruct dep.
  - rewrite payCallback_run by done.
    destruct (orders db !! orderId) as [order|];
      [|by rewrite abortTransaction_same].
    destruct (negb _); [by rewrite abortTransaction_same|].
    destruct (Order.isExpired now order); [by destruct db|].
    destruct (negb _); by rewrite abortTransaction_same.
  - rewrite payCallback_refused. simpl. rewrite abortTransaction_same.
    by rewrite payCallback_run by done.
Qed.

Lemma isExpired_false now (order : Order.t) :
  now <= Order.expiresAt order -> Order.isExpired now order = false.
Proof.
  intros H. unfold Order.isExpired.
  destruct (Z.ltb_spec (Order.expiresAt order) now); [lia|].
  by rewrite andb_false_r.
Qed.

(** A pending order of the caller that has not expired: the attempt ends
    at the save of the payment document, accepted or declined. *)
Lemma pay_attempt dep user orderId now paymentSuccess rnd (db : DB)
    (order : Order.t) :
  orders db !! orderId = Some order ->
  Order.userId order = user_id user ->
  Order.status order = Order.PENDING_PAYMENT ->
  now <= Order.expiresAt order ->
  exists paths,
    pay dep user orderId now paymentSuccess rnd db
    = (Throw (ValidationError "Payment" ("transactionId" :: paths)), db).
Proof.
  intros Hfound Howner Hstatus Hnow.
  rewrite pay_run, Hfound, Howner, N.eqb_refl, isExpired_false, Hstatus
    by done.
  destruct (Payment_validate_new
              (paymentDocument orderId order now paymentSuccess))
    as (paths & ->); [apply paymentDocument_new|].
  by exists paths.
Qed.

(** C3.  An accepted payment is not recorded and settles nothing.  For a
    pending order of the caller that has not expired, with the simulator
    accepting, the SUCCESS payment is built without a [transactionId],
    which the schema requires and only the [pre('save')] hook would
    generate; its save is rejected by the validation that precedes the
    hook.  In either deployment the call fails with the validation error,
    which names [transactionId], before the order is touched: no payment
    is recorded, the order is still PENDING_PAYMENT, and [stock] and
    [reservedStock] are what they were. *)
Theorem pay_accepted_settles_nothing
    dep user orderId now rnd (db : DB) (order : Order.t) :
  orders db !! orderId = Some order ->
  Order.userId order = user_id user ->
  Order.status order = Order.PENDING_PAYMENT ->
  now <= Order.expiresAt order ->
  exists paths,
    pay dep user orderId now true rnd db
    = (Throw (ValidationError "Payment" paths), db)
    /\ "transactionId" ∈ paths.
Proof.
  intros Hfound Howner Hstatus Hnow.
  destruct (pay_attempt dep user orderId now true rnd db order)
    as (paths & ->); [done..|].
  eexists. split; [done|]. apply list_elem_of_here.
Qed.

Lemma pay_accepted_settles_nothing_witness :
  pay ReplicaSet sampleUser 0 2000 true "XYZ" (sampleDB Order.PENDING_PAYMENT)
  = (Throw (ValidationError "Payment" ["transactionId"]),
     sampleDB Order.PENDING_PAYMENT)
  /\ pay Standalone sampleUser 0 2000 true "XYZ"
         (sampleDB Order.PENDING_PAYMENT)
     = (Throw (ValidationError "Payment" ["transactionId"]),
        sampleDB Order.PENDING_PAYMENT).
Proof.
  assert (forall dep,
            pay dep sampleUser 0 2000 true "XYZ"
                (sampleDB Order.PENDING_PAYMENT)
            = (Throw (ValidationError "Payment" ["transactionId"]),
               sampleDB Order.PENDING_PAYMENT)) as Hrun; [|by split].
  intros dep.
  destruct (pay_accepted_settles_nothing dep sampleUser 0 2000 "XYZ"
              (sampleDB Order.PENDING_PAYMENT)
              (sampleOrder Order.PENDING_PAYMENT))
    as (paths & Hrun & _); [reflexivity..|simpl; lia|].
  rewrite Hrun. f_equal.
  assert (fst (pay dep sampleUser 0 2000 true "XYZ"
                 (sampleDB Order.PENDING_PAYMENT))
          = Throw (ValidationError "Payment" ["transactionId"])) as Hfst
    by (destruct dep; vm_compute; reflexivity).
  rewrite Hrun in Hfst. exact Hfst.
Defined.

(** C4.  A declined payment leaves no attempt behind.  For a pending order
    of the caller that has not expired, with the simulator declining, the
    FAILED payment is built without a [transactionId] and its save is
    rejected like that of an accepted one.  In either deployment the call
    fails with the validation error, not with "Payment failed. Please try
    again.", and the store is exactly what it was: the order is still
    PENDING_PAYMENT and every [stock] and [reservedStock] is unchanged, as
    claimed, but the payment collection holds no FAILED attempt. *)
Theorem pay_declined_attempt_not_retained
    dep user orderId now rnd (db : DB) (order : Order.t) :
  orders db !! orderId = Some order ->
  Order.userId order = user_id user ->
  Order.status order = Order.PENDING_PAYMENT ->
  now <= Order.expiresAt order ->
  exists paths,
    pay dep user orderId now false rnd db
    = (Throw (ValidationError "Payment" paths), db)
    /\ "transactionId" ∈ paths
    /\ payments (snd (pay dep user orderId now false rnd db)) = payments db.
Proof.
  intros Hfound Howner Hstatus Hnow.
  destruct (pay_attempt dep user orderId now false rnd db order)
    as (paths & ->); [done..|].
  eexists. split; [done|]. split; [apply list_elem_of_here|done].
Qed.

Lemma pay_declined_attempt_not_retained_witness :
  pay ReplicaSet sampleUser 0 2000 false "XYZ"
      (sampleDB Order.PENDING_PAYMENT)
  = (Throw (ValidationError "Payment" ["transactionId"]),
     sampleDB Order.PENDING_PAYMENT)
  /\ payments (snd (pay Standalone sampleUser 0 2000 false "XYZ"
                      (sampleDB Order.PENDING_PAYMENT))) = [].
Proof.
  destruct (pay_declined_attempt_not_retained ReplicaSet sampleUser 0 2000
              "XYZ" (sampleDB Order.PENDING_PAYMENT)
              (sampleOrder Order.PENDING_PAYMENT))
    as (paths & Hrun & _); [reflexivity..|simpl; lia|].
  destruct (pay_declined_attempt_not_retained Standalone sampleUser 0 2000
              "XYZ" (sampleDB Order.PENDING_PAYMENT)
              (sampleOrder Order.PENDING_PAYMENT))
    as (paths' & _ & _ & Hkept); [reflexivity..|simpl; lia|].
  split; [|exact Hkept].
  rewrite Hrun. f_equal.
  assert (fst (pay ReplicaSet sampleUser 0 2000 false "XYZ"
                 (sampleDB Order.PENDING_PAYMENT))
          = Throw (ValidationError "Payment" ["transactionId"])) as Hfst
    by (vm_compute; reflexivity).
  rewrite Hrun in Hfst. exact Hfst.
Defined.

Lemma pay_expired dep user orderId now paymentSuccess rnd (db : DB)
    (order : Order.t) :
  orders db !! orderId = Some order ->
  Order.userId order = user_id user ->
  Order.isExpired now order = true ->
  pay dep user orderId now paymentSuccess rnd db
  = (Throw (AppError "Order has expired and been cancelled" 400),
     match dep with
     | ReplicaSet => db
     | Standalone => cancelledStore orderId order db
     end).
Proof.
  intros Hfound Howner Hexp.
  by rewrite pay_run, Hfound, Howner, N.eqb_refl, Hexp.
Qed.

(** C5.  Paying an expired pending order on a replica set fails with
    "Order has expired and been cancelled", yet cancels nothing: the status
    write and the release are made inside the transaction that the [throw]
    aborts, so the sample order is still PENDING_PAYMENT and its 3 units are
    still reserved.  On a standalone server the same call does cancel the
    order and release the units. *)
Theorem pay_expired_cancellation_rolled_back :
  pay ReplicaSet sampleUser 0 2000000 true "XYZ"
      (sampleDB Order.PENDING_PAYMENT)
  = (Throw (AppError "Order has expired and been cancelled" 400),
     sampleDB Order.PENDING_PAYMENT)
  /\ orders (sampleDB Order.PENDING_PAYMENT) !! 0%nat
     = Some (sampleOrder Order.PENDING_PAYMENT)
  /\ products (sampleDB Order.PENDING_PAYMENT) !! 1%N
     = Some (sampleProduct 50 3)
  /\ pay Standalone sampleUser 0 2000000 true "XYZ"
         (sampleDB Order.PENDING_PAYMENT)
     = (Throw (AppError "Order has expired and been cancelled" 400),
        mkDB {[ 1%N := sampleProduct 50 0 ]} [sampleOrder Order.CANCELLED]
             [] ∅ []).
Proof.
  split; [|split; [reflexivity|split; [reflexivity|]]].
  - by apply (pay_expired ReplicaSet _ _ _ _ _ _
                (sampleOrder Order.PENDING_PAYMENT)).
  - rewrite (pay_expired Standalone _ _ _ _ _ _
               (sampleOrder Order.PENDING_PAYMENT)) by done.
    reflexivity.
Qed.

(** ** The expiration sweeper *)

(** The sweeper's body for one loaded order, in either deployment: nothing
    in it throws, so what it writes is kept. *)
Lemma cancelExpiredOrder_run dep (e : nat * Order.t) (db : DB) :
  cancelExpiredOrder dep e db = (Ok tt, cancelledStore (fst e) (snd e) db).
Proof.
  assert (forall session, sessionOk dep session ->
            cancelCallback dep e session db
            = (Ok tt, cancelledStore (fst e) (snd e) db)) as Hcb.
  { intros session Hs. unfold cancelCallback, bind, Order_saveStatus, bind.
    rewrite withSession_ok by done. unfold modify.
    rewrite for_of_Product_inc by done. by destruct db. }
  unfold cancelExpiredOrder, logErrors, runWithTransaction. destruct dep.
  - by rewrite Hcb.
  - assert (cancelCallback Standalone e (Some TxnSession) db
            = (Throw ReplicaSetRequired, db)) as -> by reflexivity.
    simpl. by rewrite abortTransaction_same, Hcb.
Qed.

Lemma for_of_cancelExpiredOrder dep (found : list (nat * Order.t)) (db : DB) :
  for_of found (cancelExpiredOrder dep) db
  = (Ok tt, foldl (fun d e => cancelledStore (fst e) (snd e) d) db found).
Proof.
  revert db. induction found as [|e found IH]; intros db; [done|].
  simpl. unfold bind. by rewrite cancelExpiredOrder_run, IH.
Qed.

Lemma sweep_run dep now (db : DB) :
  sweep dep now db
  = (Ok tt, foldl (fun d e => cancelledStore (fst e) (snd e) d) db
              (expiredOrders now db)).
Proof.
  unfold sweep, logErrors, bind, gets.
  by rewrite for_of_cancelExpiredOrder.
Qed.

(** With nothing in the gap the interleaved sweeper is the sweeper. *)
Lemma sweepInterleaved_ret dep now (db : DB) :
  sweepInterleaved dep now (ret tt) db = sweep dep now db.
Proof. reflexivity. Qed.

(** ** Releasing a reservation *)

(** C8.  A release is not floored at 0 and reports nothing.  In the store
    below the product has [reservedStock] 2 and the expired pending order
    holds 3 units of it.  The sweeper releases them with [$inc:
    { reservedStock: -3 }] and returns normally, and so does the expiry
    path of pay before it throws its usual "Order has expired and been
    cancelled": [reservedStock] is left at -1, below the minimum of 0 that
    the product schema declares for it, and no violation is raised or
    logged. *)
Theorem release_not_floored :
  fst (sweep Standalone 2000000 overReleaseDB) = Ok tt
  /\ Product.reservedStock
       <$> products (snd (sweep Standalone 2000000 overReleaseDB)) !! 1%N
     = Some (-1)
  /\ fst (pay Standalone sampleUser 0 2000000 true "XYZ" overReleaseDB)
     = Throw (AppError "Order has expired and been cancelled" 400)
  /\ Product.reservedStock
       <$> products (snd (pay Standalone sampleUser 0 2000000 true "XYZ"
                            overReleaseDB)) !! 1%N
     = Some (-1).
Proof. repeat split; vm_compute; reflexivity. Qed.



(** ** The sweeper racing a payment *)

(** C9.  On a standalone server the sweeper and a pay request that both
    saw the sample order pending and expired both cancel it and both
    release its stock.  The sweeper loads the order; in the gap before its
    loop the pay request cancels the order and releases the 3 units
    (reservedStock 3 to 0); the sweeper then writes CANCELLED again, the
    write not being conditional on the stored status, and releases the same
    3 units a second time: [reservedStock] ends at -3.  (On a replica set
    the same schedule releases once, the cancellation made by pay having
    been rolled back.) *)
Theorem sweep_pay_race_double_release :
  expiredOrders 2000000 (sampleDB Order.PENDING_PAYMENT)
  = [(0%nat, sampleOrder Order.PENDING_PAYMENT)]
  /\ pay Standalone sampleUser 0 2000000 true "XYZ"
         (sampleDB Order.PENDING_PAYMENT)
     = (Throw (AppError "Order has expired and been cancelled" 400),
        mkDB {[ 1%N := sampleProduct 50 0 ]} [sampleOrder Order.CANCELLED]
             [] ∅ [])
  /\ sweepInterleaved Standalone 2000000
       (payRequest Standalone sampleUser 0 2000000 true "XYZ")
       (sampleDB Order.PENDING_PAYMENT)
     = (Ok tt,
        mkDB {[ 1%N := sampleProduct 50 (-3) ]} [sampleOrder Order.CANCELLED]
             [] ∅ [])
  /\ sweepInterleaved ReplicaSet 2000000
       (payRequest ReplicaSet sampleUser 0 2000000 true "XYZ")
       (sampleDB Order.PENDING_PAYMENT)
     = (Ok tt,
        mkDB {[ 1%N := sampleProduct 50 0 ]} [sampleOrder Order.CANCELLED]
             [] ∅ []).
Proof. repeat split; vm_compute; reflexivity. Qed.

(** ** The inventory invariant *)

Lemma orderedOf_nonneg id (o : Order.t) :
  Forall (fun i => 0 <= Order.quantity i) (Order.items o) ->
  0 <= orderedOf id o.
Proof. apply sumFor_nonneg. Qed.

Lemma pendingOf_nonneg id (os : list Order.t) :
  Forall (fun o => Forall (fun i => 0 <= Order.quantity i) (Order.items o)) os ->
  0 <= pendingOf id os.
Proof.
  induction 1 as [|o os Ho _ IH]; simpl; [done|].
  unfold heldBy. pose proof (orderedOf_nonneg id o Ho).
  destruct (Order.status_eqb _ _); lia.
Qed.

(** Taking a pending order out of PENDING_PAYMENT takes its lines out of
    the pending quantities. *)
Lemma pendingOf_alter id (os : list Order.t) (i : nat) (o : Order.t) s :
  os !! i = Some o ->
  Order.status o = Order.PENDING_PAYMENT ->
  s <> Order.PENDING_PAYMENT ->
  pendingOf id (alter (Order.setStatus s) i os)
  = pendingOf id os - orderedOf id o.
Proof.
  intros Hi Hst Hs. revert i Hi.
  induction os as [|o' os IH]; intros [|i] Hi; try done.
  - injection Hi as ->.
    change (pendingOf id (Order.setStatus s o :: os)
            = heldBy id o + pendingOf id os - orderedOf id o).
    change (heldBy id (Order.setStatus s o) + pendingOf id os
            = heldBy id o + pendingOf id os - orderedOf id o).
    unfold heldBy. simpl. rewrite Hst. simpl.
    destruct s; try done; simpl; lia.
  - change (heldBy id o' + pendingOf id (alter (Order.setStatus s) i os)
            = heldBy id o' + pendingOf id os - orderedOf id o).
    rewrite (IH i Hi). lia.
Qed.

Lemma ledgerOk_inventoryOk (db : DB) : ledgerOk db -> inventoryOk db.
Proof.
  intros (Hprod & Hqty) id p Hp.
  destruct (Hprod id p Hp) as [Hpend Hstock].
  pose proof (pendingOf_nonneg id (orders db) Hqty). simpl. lia.
Qed.

Lemma cancelledStore_ledgerOk (orderId : nat) (order : Order.t) (db : DB) :
  ledgerOk db ->
  orders db !! orderId = Some order ->
  Order.status order = Order.PENDING_PAYMENT ->
  ledgerOk (cancelledStore orderId order db).
Proof.
  intros (Hprod & Hqty) Hfound Hst.
  assert (Forall (fun i => 0 <= Order.quantity i) (Order.items order)) as Hqo.
  { rewrite Forall_forall in Hqty. apply Hqty.
    by eapply list_elem_of_lookup_2. }
  split.
  - intros id p' Hp'. simpl in Hp'.
    rewrite lookup_incAll, sumFor_zero, sumFor_opp in Hp'.
    destruct (products db !! id) as [p|] eqn:Hp; [|done].
    injection Hp' as <-. destruct (Hprod id p Hp) as [Hpend Hstock].
    simpl. rewrite (pendingOf_alter id _ _ order) by done.
    pose proof (orderedOf_nonneg id order Hqo). unfold orderedOf in *. lia.
  - simpl. apply Forall_alter; [done|]. by intros o _ Ho.
Qed.

Lemma isExpired_pending now (order : Order.t) :
  Order.isExpired now order = true ->
  Order.status order = Order.PENDING_PAYMENT.
Proof.
  unfold Order.isExpired. intros [H _]%andb_prop. by apply status_eqb_eq.
Qed.

(** Checkout leaves the store as it found it, whatever it answers. *)
Lemma checkout_store dep user body now rnd (db : DB) :
  snd (checkout dep user body now rnd db) = db.
Proof.
  rewrite checkout_run.
  destruct (carts db !! user_id user) as [cart|]; [|done].
  destruct (Cart.items cart); [done|].
  by destruct (firstOffender db _).
Qed.

(** Pay changes the store in one case only: on a standalone server it
    cancels and releases a pending order of the caller that has expired. *)
Lemma pay_store dep user orderId now paymentSuccess rnd (db : DB) :
  snd (pay dep user orderId now paymentSuccess rnd db) = db
  \/ exists order,
       orders db !! orderId = Some order
       /\ Order.status order = Order.PENDING_PAYMENT
       /\ Order.isExpired now order = true
       /\ dep = Standalone
       /\ snd (pay dep user orderId now paymentSuccess rnd db)
          = cancelledStore orderId order db.
Proof.
  rewrite pay_run.
  destruct (orders db !! orderId) as [order|] eqn:Hfound; [|by left].
  destruct (negb _); [by left|].
  destruct (Order.isExpired now order) eqn:Hexp.
  - destruct dep; [by left|]. right. exists order.
    repeat split; try done. by eapply isExpired_pending.
  - left. by destruct (negb _).
Qed.

Lemma pay_ledgerOk dep user orderId now paymentSuccess rnd (db : DB) :
  ledgerOk db ->
  ledgerOk (snd (pay dep user orderId now paymentSuccess rnd db)).
Proof.
  intros Hok.
  destruct (pay_store dep user orderId now paymentSuccess rnd db)
    as [->|(order & Hfound & Hst & _ & _ & ->)]; [done|].
  by apply cancelledStore_ledgerOk.
Qed.

(** The orders the sweeper loads are stored, pending, and each loaded once. *)
Lemma expiredOrders_elem now (db : DB) (e : nat * Order.t) :
  e ∈ expiredOrders now db ->
  orders db !! fst e = Some (snd e)
  /\ Order.status (snd e) = Order.PENDING_PAYMENT.
Proof.
  unfold expiredOrders. rewrite list_elem_of_In, filter_In.
  intros [Hin Hf]. apply list_elem_of_In, elem_of_lookup_imap in Hin.
  destruct Hin as (i & o & -> & Hi). simpl in *.
  apply andb_prop in Hf as [Hst _]. by apply status_eqb_eq in Hst.
Qed.

Lemma imap_pair_indices {A} (l : list A) (k : nat) :
  map fst (imap (fun i x => ((k + i)%nat, x)) l) = seq k (length l).
Proof.
  revert k. induction l as [|x l IH]; intros k; simpl; [done|].
  f_equal; [lia|]. rewrite <- IH. f_equal.
  apply imap_ext. intros i y _. simpl. f_equal. lia.
Qed.

Lemma NoDup_fst_filter {A} (f : nat * A -> bool) (l : list (nat * A)) :
  NoDup (map fst l) -> NoDup (map fst (List.filter f l)).
Proof.
  induction l as [|x l IH]; simpl; [done|].
  intros [Hx Hnd]%NoDup_cons. destruct (f x); simpl; [|by apply IH].
  apply NoDup_cons. split; [|by apply IH].
  intros Hin. apply Hx.
  apply list_elem_of_fmap in Hin as (y & -> & Hy).
  apply list_elem_of_In, filter_In in Hy as [Hy _].
  apply list_elem_of_fmap. exists y. split; [done|by apply list_elem_of_In].
Qed.

Lemma expiredOrders_NoDup now (db : DB) :
  NoDup (map fst (expiredOrders now db)).
Proof.
  unfold expiredOrders. apply NoDup_fst_filter.
  rewrite (imap_ext pair (fun i x => ((0 + i)%nat, x))) by done.
  rewrite imap_pair_indices. apply NoDup_seq.
Qed.

(** The sweeper's loop keeps the ledger consistent as long as each loaded
    order is still stored as loaded when its turn comes. *)
Lemma sweepLoop_ledgerOk (found : list (nat * Order.t)) (db : DB) :
  NoDup (map fst found) ->
  (forall e, e ∈ found ->
     orders db !! fst e = Some (snd e)
     /\ Order.status (snd e) = Order.PENDING_PAYMENT) ->
  ledgerOk db ->
  ledgerOk (foldl (fun d e => cancelledStore (fst e) (snd e) d) db found).
Proof.
  revert db. induction found as [|e found IH]; intros db Hnd Hfound Hok;
    [done|].
  simpl in *. apply NoDup_cons in Hnd as [He Hnd].
  destruct (Hfound e) as [Hstored Hst]; [apply elem_of_cons; by left|].
  apply IH; [done| |by apply cancelledStore_ledgerOk].
  intros e' He'. destruct (Hfound e') as [Hstored' Hst'];
    [apply elem_of_cons; by right|].
  split; [|done]. simpl. rewrite list_lookup_alter_ne; [done|].
  intros Heq. apply He. rewrite Heq. apply list_elem_of_fmap. eauto.
Qed.

Lemma sweep_ledgerOk dep now (db : DB) :
  ledgerOk db -> ledgerOk (snd (sweep dep now db)).
Proof.
  intros Hok. rewrite sweep_run. simpl.
  apply sweepLoop_ledgerOk; [apply expiredOrders_NoDup| |done].
  intros e. apply expiredOrders_elem.
Qed.

(** No status write of the admin route makes an order pending, so none
    adds to the pending quantities. *)
Lemma pendingOf_alter_le id (os : list Order.t) (i : nat) s :
  Forall (fun o => Forall (fun i => 0 <= Order.quantity i) (Order.items o)) os ->
  s <> Order.PENDING_PAYMENT ->
  pendingOf id (alter (Order.setStatus s) i os) <= pendingOf id os.
Proof.
  intros Hqty Hs. revert i.
  induction Hqty as [|o os Ho _ IH]; intros [|i]; try done.
  - change (heldBy id (Order.setStatus s o) + pendingOf id os
            <= heldBy id o + pendingOf id os).
    pose proof (orderedOf_nonneg id o Ho). unfold heldBy. simpl.
    destruct s; try done; simpl; destruct (Order.status_eqb _ _); lia.
  - change (heldBy id o + pendingOf id (alter (Order.setStatus s) i os)
            <= heldBy id o + pendingOf id os).
    specialize (IH i). lia.
Qed.

Lemma updateOrderStatus_ledgerOk orderId status (db : DB) :
  ledgerOk db -> ledgerOk (snd (updateOrderStatus orderId status db)).
Proof.
  intros Hok. unfold updateOrderStatus, bind, gets, ret, modify. simpl.
  destruct (orders db !! orderId) as [order|]; [|done].
  rewrite includes_validTransitions.
  destruct (legalTransition (Order.status order) status) eqn:Hlegal; [|done].
  assert (status <> Order.PENDING_PAYMENT) as Hs
    by (intros ->; by destruct (Order.status order)).
  destruct Hok as (Hprod & Hqty). simpl.
  split.
  - intros id p Hp. destruct (Hprod id p Hp) as [Hpend Hstock]. simpl in *.
    pose proof (pendingOf_alter_le id (orders db) orderId status Hqty Hs).
    lia.
  - simpl. apply Forall_alter; [done|]. by intros o _ Ho.
Qed.

Lemma run_ledgerOk (o : operation) (db : DB) :
  ledgerOk db -> ledgerOk (run o db).
Proof.
  destruct o as [uid cart| | | |]; simpl; intros Hok.
  - done.
  - by rewrite checkout_store.
  - by apply pay_ledgerOk.
  - by apply sweep_ledgerOk.
  - by apply updateOrderStatus_ledgerOk.
Qed.

Lemma reachable_ledgerOk (db0 db : DB) :
  ledgerOk db0 -> reachable db0 db -> ledgerOk db.
Proof.
  intros Hok. induction 1 as [|db o _ IH]; [done|].
  by apply run_ledgerOk.
Qed.

(** C1.  The operations do not preserve the inventory invariant.  The
    store below satisfies it: its one product has [stock] 50 and
    [reservedStock] 2.  It holds a pending order, expired, for 3 units of
    the product.  One tick of the sweeper, in either deployment, or one pay
    request of the owner on a standalone server releases the 3 units with
    an unguarded [$inc] and leaves [reservedStock] at -1: the store so
    reached breaks [0 <= reservedStock], and with it the minimum of 0 that
    the product schema declares for the field. *)
Theorem inventory_invariant_not_preserved :
  inventoryOk overReleaseDB
  /\ (forall dep, ~ inventoryOk (run (Sweep dep 2000000) overReleaseDB))
  /\ ~ inventoryOk (run (Pay Standalone sampleUser 0 2000000 true "XYZ")
                       overReleaseDB)
  /\ reachable overReleaseDB (run (Sweep ReplicaSet 2000000) overReleaseDB).
Proof.
  assert (forall db,
            products db !! 1%N = Some (sampleProduct 50 (-1)) ->
            ~ inventoryOk db) as Hbroken.
  { intros db Hp Hinv. specialize (Hinv 1%N _ Hp). simpl in Hinv. lia. }
  split; [|split; [|split]].
  - intros id p Hp. simpl in Hp.
    apply lookup_singleton_Some in Hp as [<- <-]. simpl. lia.
  - intros dep. apply Hbroken. destruct dep; vm_compute; reflexivity.
  - apply Hbroken. vm_compute. reflexivity.
  - apply reachable_step, reachable_init.
Qed.

(** X28.  Where the ledger is consistent the invariant holds, as long as
    requests do not interleave.  From a store in which every product has
    [reservedStock <= stock], the quantities held by the pending orders are
    covered by [reservedStock] and no order line is negative, any sequence
    of checkouts, payments, sweeps, admin status updates and cart writes,
    each run to completion and in either deployment, leads to a store in
    which every product has [0 <= reservedStock <= stock], hence
    [availableStock >= 0]. *)
Theorem consistent_ledger_keeps_the_invariant (db0 db : DB) :
  ledgerOk db0 ->
  reachable db0 db ->
  inventoryOk db
  /\ map_Forall (fun _ p => 0 <= Product.availableStock p) (products db).
Proof.
  intros Hok Hreach.
  assert (inventoryOk db) as Hinv
    by (eapply ledgerOk_inventoryOk, reachable_ledgerOk; done).
  split; [done|].
  intros id p Hp. specialize (Hinv id p Hp). simpl in *.
  unfold Product.availableStock. lia.
Qed.

Lemma consistent_ledger_keeps_the_invariant_witness :
  ledgerOk (sampleDB Order.PENDING_PAYMENT)
  /\ products
       (run (Sweep ReplicaSet 2000000)
          (run (Pay Standalone sampleUser 0 2000000 true "XYZ")
             (sampleDB Order.PENDING_PAYMENT))) !! 1%N
     = Some (sampleProduct 50 0)
  /\ inventoryOk
       (run (Sweep ReplicaSet 2000000)
          (run (Pay Standalone sampleUser 0 2000000 true "XYZ")
             (sampleDB Order.PENDING_PAYMENT))).
Proof.
  assert (ledgerOk (sampleDB Order.PENDING_PAYMENT)) as Hok.
  { split.
    - intros id p Hp. simpl in Hp.
      apply lookup_singleton_Some in Hp as [<- <-]. vm_compute.
      split; discriminate.
    - repeat constructor; simpl; lia. }
  split; [exact Hok|]. split; [vm_compute; reflexivity|].
  apply (consistent_ledger_keeps_the_invariant
           (sampleDB Order.PENDING_PAYMENT)); [exact Hok|].
  apply reachable_step, reachable_step, reachable_init.
Defined.

(** ** A scenario of the design's test list *)

(** A sweep over an order that is already cancelled changes nothing. *)
Example scenario_sweep_replayed :
  let db1 := snd (sweep ReplicaSet 2000000 (sampleDB Order.PENDING_PAYMENT)) in
  products db1 !! 1%N = Some (sampleProduct 50 0)
  /\ Order.status <$> orders db1 !! 0%nat = Some Order.CANCELLED
  /\ sweep ReplicaSet 2060000 db1 = (Ok tt, db1).
Proof. repeat split; vm_compute; reflexivity. Qed.

(** * Further properties of the orders router *)

(** ** What the sweeper does to the store *)

Lemma sweepLoop_store (found : list (nat * Order.t)) (db : DB) :
  foldl (fun d e => cancelledStore (fst e) (snd e) d) db found
  = Build_DB
      (foldl (fun m e =>
                incAll Order.productId (fun _ => 0)
                  (fun i => - Order.quantity i) (Order.items (snd e)) m)
             (products db) found)
      (foldl (fun os e => alter (Order.setStatus Order.CANCELLED) (fst e) os)
             (orders db) found)
      (payments db) (carts db) (emailJobs db) (emailQueue db).
Proof.
  revert db. induction found as [|e found IH]; intros db; simpl.
  - by destruct db.
  - by rewrite IH.
Qed.

Lemma sweepLoop_orders (found : list (nat * Order.t)) (os : list Order.t)
    (i : nat) :
  foldl (fun os e => alter (Order.setStatus Order.CANCELLED) (fst e) os)
        os found !! i
  = (if decide (i ∈ map fst found)
     then Order.setStatus Order.CANCELLED else id) <$> os !! i.
Proof.
  revert os. induction found as [|e found IH]; intros os.
  - cbn [foldl map].
    destruct (decide (i ∈ [])) as [Hin|_]; [by apply elem_of_nil in Hin|].
    by destruct (os !! i).
  - cbn [foldl map]. rewrite IH.
    destruct (decide (i ∈ fst e :: map fst found)) as [Hin|Hout].
    + destruct (decide (fst e = i)) as [<-|Hne].
      * rewrite list_lookup_alter_eq.
        destruct (os !! fst e) as [o|]; simpl;
          [|by destruct (decide (fst e ∈ map fst found))].
        by destruct (decide (fst e ∈ map fst found)).
      * rewrite list_lookup_alter_ne by done.
        apply elem_of_cons in Hin as [Heq|Hin]; [by subst|].
        by rewrite decide_True by done.
    + apply not_elem_of_cons in Hout as [Hne Hout].
      rewrite list_lookup_alter_ne by done.
      by rewrite decide_False by done.
Qed.

Lemma sweepLoop_products (found : list (nat * Order.t))
    (m : gmap N Product.t) (id : ObjectId) :
  foldl (fun m e =>
           incAll Order.productId (fun _ => 0) (fun i => - Order.quantity i)
             (Order.items (snd e)) m) m found !! id
  = Product.inc 0 (- foldr (fun e acc => orderedOf id (snd e) + acc) 0 found)
    <$> m !! id.
Proof.
  revert m. induction found as [|e found IH]; intros m; simpl.
  - destruct (m !! id) as [p|]; simpl; [|done]. by rewrite inc_zero.
  - rewrite IH, lookup_incAll, sumFor_zero, sumFor_opp.
    destruct (m !! id) as [p|]; simpl; [|done].
    rewrite inc_inc. unfold orderedOf. do 2 f_equal; lia.
Qed.

(** The loaded orders are the expired pending ones, in collection order. *)
Lemma expired_filter_imap {A} (f : Order.t -> bool) (g : Order.t -> A)
    (os : list Order.t) (k : nat) :
  map (fun e => g (snd e))
      (List.filter (fun e => f (snd e))
                   (imap (fun i x => ((k + i)%nat, x)) os))
  = map g (List.filter f os).
Proof.
  revert k. induction os as [|o os IH]; intros k; [done|].
  cbn [imap List.filter]. 
  rewrite (imap_ext _ (fun i x => ((S k + i)%nat, x)))
    by (intros i y _; simpl; f_equal; lia).
  cbn [snd]. destruct (f o); cbn [map]; by rewrite IH.
Qed.

Lemma expiredOrders_loaded now (db : DB) :
  map snd (expiredOrders now db)
  = List.filter (Order.isExpired now) (orders db).
Proof.
  unfold expiredOrders.
  rewrite (imap_ext pair (fun i x => ((0 + i)%nat, x))) by done.
  rewrite <- (map_id (List.filter (Order.isExpired now) (orders db))).
  apply (expired_filter_imap (Order.isExpired now) (fun o => o)).
Qed.

Lemma expiredOrders_index now (db : DB) (i : nat) :
  i ∈ map fst (expiredOrders now db)
  <-> exists o, orders db !! i = Some o /\ Order.isExpired now o = true.
Proof.
  split.
  - intros (e & -> & He)%list_elem_of_fmap.
    exists (snd e). unfold expiredOrders in He.
    apply list_elem_of_In, filter_In in He as [Hin Hf].
    apply list_elem_of_In, elem_of_lookup_imap in Hin
      as (j & o & -> & Hj). by split.
  - intros (o & Hi & Hexp). apply list_elem_of_fmap. exists (i, o).
    split; [done|]. unfold expiredOrders.
    apply list_elem_of_In, filter_In. split; [|done].
    by apply list_elem_of_In, elem_of_lookup_imap_2.
Qed.

Lemma releasedBySweep_loaded now id (found : list (nat * Order.t))
    (os : list Order.t) :
  map snd found = List.filter (Order.isExpired now) os ->
  foldr (fun e acc => orderedOf id (snd e) + acc) 0 found
  = releasedBySweep now id os.
Proof.
  revert found. induction os as [|o os IH]; intros found Hfound; simpl in *.
  - by destruct found.
  - destruct (Order.isExpired now o).
    + destruct found as [|e found]; [done|]. simpl in *.
      injection Hfound as -> Hrest. by rewrite (IH found).
    + rewrite (IH found) by done. lia.
Qed.

(** The sweep as a function of the store. *)
Lemma sweep_store dep now (db : DB) :
  sweep dep now db
  = (Ok tt,
     Build_DB
       (foldl (fun m e =>
                 incAll Order.productId (fun _ => 0)
                   (fun i => - Order.quantity i) (Order.items (snd e)) m)
              (products db) (expiredOrders now db))
       (map (sweptOrder now) (orders db))
       (payments db) (carts db) (emailJobs db) (emailQueue db)).
Proof.
  rewrite sweep_run, sweepLoop_store. do 2 f_equal.
  apply list_eq. intros i.
  rewrite sweepLoop_orders, list_lookup_fmap.
  destruct (orders db !! i) as [o|] eqn:Hi; simpl; [|done].
  unfold sweptOrder.
  destruct (decide (i ∈ map fst (expiredOrders now db))) as [Hin|Hout].
  - apply expiredOrders_index in Hin as (o' & Hi' & Hexp).
    rewrite Hi in Hi'. injection Hi' as <-. by rewrite Hexp.
  - destruct (Order.isExpired now o) eqn:Hexp; [|done].
    exfalso. apply Hout, expiredOrders_index. eauto.
Qed.


Lemma filter_none {A} (f : A -> bool) (l : list A) :
  (forall x, x ∈ l -> f x = false) -> List.filter f l = [].
Proof.
  induction l as [|x l IH]; intros Hall; simpl; [done|].
  rewrite (Hall x) by (apply elem_of_cons; by left).
  apply IH. intros y Hy. apply Hall, elem_of_cons. by right.
Qed.

Lemma sweptOrder_not_expired now now' (o : Order.t) :
  now' <= now -> Order.isExpired now' (sweptOrder now o) = false.
Proof.
  intros Hle. unfold sweptOrder.
  destruct (Order.isExpired now o) eqn:Hexp; [done|].
  unfold Order.isExpired in *.
  destruct (Order.status_eqb _ _); [|done]. simpl in *.
  apply Z.ltb_ge in Hexp. apply Z.ltb_ge. lia.
Qed.

(** X2.  Replaying a tick is a no-op: after a sweep at [now], a further
    sweep whose clock reads [now] or earlier, in whichever deployment,
    finds nothing to cancel and returns the store as it is. *)
Theorem sweep_replay_is_noop dep dep' now now' (db : DB) :
  now' <= now ->
  sweep dep' now' (snd (sweep dep now db)) = (Ok tt, snd (sweep dep now db)).
Proof.
  intros Hle. rewrite (sweep_run dep').
  assert (expiredOrders now' (snd (sweep dep now db)) = []) as ->; [|done].
  unfold expiredOrders. apply filter_none. intros e He.
  apply elem_of_lookup_imap in He as (i & o & -> & Hi).
  rewrite sweep_store in Hi. simpl in Hi.
  rewrite list_lookup_fmap in Hi.
  destruct (orders db !! i) as [o0|]; [|done]. injection Hi as <-.
  by apply (sweptOrder_not_expired now now').
Qed.

Lemma sweep_replay_is_noop_witness :
  sweep Standalone 2000000
    (snd (sweep ReplicaSet 2000000 (sampleDB Order.PENDING_PAYMENT)))
  = (Ok tt, snd (sweep ReplicaSet 2000000 (sampleDB Order.PENDING_PAYMENT))).
Proof.
  apply (sweep_replay_is_noop ReplicaSet Standalone 2000000 2000000). lia.
Defined.

(** ** Payments that are refused *)

Lemma pay_refusal_run dep user orderId now paymentSuccess rnd (db : DB)
    (e : Exn) :
  payRefusal db user orderId = Some e ->
  pay dep user orderId now paymentSuccess rnd db = (Throw e, db).
Proof.
  unfold payRefusal. rewrite pay_run.
  destruct (orders db !! orderId) as [order|]; [|by intros [= <-]].
  destruct (negb _); [by intros [= <-]|].
  unfold Order.isExpired.
  destruct (Order.status order); simpl; intros [= <-]; reflexivity.
Qed.

(** X3.  An order that is missing, belongs to someone else or is no longer
    PENDING_PAYMENT is refused with its own answer (404 "Order not found",
    403 "Unauthorized access to order", 400 "Order has already been paid",
    "... been cancelled", "... already been shipped", "... already been
    delivered"), whatever the clock and the simulator say, and in either
    deployment the store is left exactly as it was.  In particular the
    expiry branch never fires for an order that is not pending, and the
    generic "Cannot process payment" text is never sent. *)
Theorem pay_refuses_without_effect
    dep user orderId now paymentSuccess rnd (db : DB) (e : Exn) :
  payRefusal db user orderId = Some e ->
  pay dep user orderId now paymentSuccess rnd db = (Throw e, db).
Proof. apply pay_refusal_run. Qed.

Lemma pay_refuses_without_effect_witness :
  payRefusal (sampleDB Order.CANCELLED) sampleUser 0
  = Some (AppError "Order has been cancelled" 400)
  /\ pay Standalone sampleUser 0 2000000 true "XYZ" (sampleDB Order.CANCELLED)
     = (Throw (AppError "Order has been cancelled" 400),
        sampleDB Order.CANCELLED).
Proof.
  split; [reflexivity|].
  apply (pay_refuses_without_effect Standalone sampleUser 0 2000000 true
           "XYZ" (sampleDB Order.CANCELLED)).
  reflexivity.
Defined.

(** X4.  On a replica set pay is all or nothing: whenever the call fails,
    for whatever reason, no collection and no queue has changed. *)
Theorem pay_failure_on_replica_set_writes_nothing
    user orderId now paymentSuccess rnd (db db' : DB) (e : Exn) :
  pay ReplicaSet user orderId now paymentSuccess rnd db = (Throw e, db') ->
  db' = db.
Proof.
  rewrite pay_run.
  destruct (orders db !! orderId) as [order|]; [|by intros [= _ <-]].
  destruct (negb _); [by intros [= _ <-]|].
  destruct (Order.isExpired now order); [by intros [= _ <-]|].
  destruct (negb _); by intros [= _ <-].
Qed.

Lemma pay_failure_on_replica_set_writes_nothing_witness :
  pay ReplicaSet sampleUser 0 2000000 true "XYZ"
      (sampleDB Order.PENDING_PAYMENT)
  = (Throw (AppError "Order has expired and been cancelled" 400),
     sampleDB Order.PENDING_PAYMENT).
Proof.
  assert (fst (pay ReplicaSet sampleUser 0 2000000 true "XYZ"
                 (sampleDB Order.PENDING_PAYMENT))
          = Throw (AppError "Order has expired and been cancelled" 400))
    as Hfst by (vm_compute; reflexivity).
  destruct (pay ReplicaSet sampleUser 0 2000000 true "XYZ"
              (sampleDB Order.PENDING_PAYMENT)) as [r db'] eqn:Hrun.
  simpl in Hfst. subst r.
  by rewrite (pay_failure_on_replica_set_writes_nothing _ _ _ _ _ _ _ _ Hrun).
Defined.

(** ** The life of an order *)

Lemma setStatus_same (o : Order.t) : Order.setStatus (Order.status o) o = o.
Proof. by destruct o. Qed.

Lemma legalTransition_not_to_pending s :
  legalTransition s Order.PENDING_PAYMENT = false.
Proof. by destruct s. Qed.

(** What one operation does to a stored order: it stays where it is, the
    same but for its status, which is either kept or moved along one legal
    transition. *)
Lemma run_order (op : operation) (db : DB) (i : nat) (o : Order.t) :
  orders db !! i = Some o ->
  exists s,
    orders (run op db) !! i = Some (Order.setStatus s o)
    /\ (s = Order.status o \/ legalTransition (Order.status o) s = true).
Proof.
  intros Hi.
  assert (exists s, orders db !! i = Some (Order.setStatus s o)
                    /\ (s = Order.status o
                        \/ legalTransition (Order.status o) s = true))
    as Hsame by (exists (Order.status o); by rewrite setStatus_same; auto).
  assert (forall s orderId order,
            orders db !! orderId = Some order ->
            Order.status order = Order.PENDING_PAYMENT ->
            legalTransition Order.PENDING_PAYMENT s = true ->
            exists s',
              alter (Order.setStatus s) orderId (orders db) !! i
              = Some (Order.setStatus s' o)
              /\ (s' = Order.status o
                  \/ legalTransition (Order.status o) s' = true)) as Hmove.
  { intros s orderId order Hfound Hst Hlegal.
    destruct (decide (orderId = i)) as [->|Hne].
    - exists s. rewrite list_lookup_alter_eq, Hi. simpl.
      rewrite Hi in Hfound. injection Hfound as <-. rewrite Hst. auto.
    - by rewrite list_lookup_alter_ne. }
  destruct op as [uid cart|dep user body now rnd
                  |dep user orderId now paymentSuccess rnd|dep now
                  |orderId status]; cbn [run].
  - done.
  - by rewrite checkout_store.
  - destruct (pay_store dep user orderId now paymentSuccess rnd db)
      as [->|(order & Hfound & Hst & _ & _ & ->)]; [done|].
    simpl. by eapply Hmove.
  - rewrite sweep_store. simpl. rewrite list_lookup_fmap, Hi. simpl.
    unfold sweptOrder. destruct (Order.isExpired now o) eqn:Hexp.
    + exists Order.CANCELLED. split; [done|]. right.
      by rewrite (isExpired_pending now o).
    + exists (Order.status o). rewrite setStatus_same. auto.
  - unfold updateOrderStatus, bind, gets, ret, modify. simpl.
    destruct (orders db !! orderId) as [order|] eqn:Hfound; [|done].
    rewrite includes_validTransitions.
    destruct (legalTransition (Order.status order) status) eqn:Hlegal;
      [|done].
    simpl. destruct (decide (orderId = i)) as [->|Hne].
    + exists status. rewrite list_lookup_alter_eq, Hi. simpl.
      rewrite Hi in Hfound. injection Hfound as <-. auto.
    + by rewrite list_lookup_alter_ne.
Qed.

Lemma lifecycleReaches_step a b c :
  lifecycleReaches a b = true ->
  c = b \/ legalTransition b c = true ->
  lifecycleReaches a c = true.
Proof. intros Hab [->|Hbc]; [done|]. by destruct a, b, c. Qed.

Lemma setStatus_setStatus s s' (o : Order.t) :
  Order.setStatus s' (Order.setStatus s o) = Order.setStatus s' o.
Proof. reflexivity. Qed.

Lemma reachable_order (db0 db : DB) (i : nat) (o : Order.t) :
  reachable db0 db ->
  orders db0 !! i = Some o ->
  exists s,
    orders db !! i = Some (Order.setStatus s o)
    /\ lifecycleReaches (Order.status o) s = true.
Proof.
  intros Hreach Hi. induction Hreach as [|db op _ (s & Hs & Hlife)].
  - exists (Order.status o). rewrite setStatus_same. split; [done|].
    by destruct (Order.status o).
  - destruct (run_order op db i _ Hs) as (s' & Hs' & Hstep).
    exists s'. split; [done|].
    eapply lifecycleReaches_step; [done|]. simpl in Hstep.
    destruct Hstep; auto.
Qed.

(** X7.  Orders are never deleted and only their status moves.  Whatever
    operations run (checkout, pay, sweep, admin update, cart changes, in
    any order and deployment), an order once stored is still stored under
    the same id with the same owner, order number, lines, total, address,
    payment method, notes and expiry; its status is one that the legal
    transitions lead to from the status it had.  So a CANCELLED or
    DELIVERED order stays exactly as it is, and no order returns to
    PENDING_PAYMENT once it has left it. *)
Theorem orders_only_move_along_the_lifecycle
    (db0 db : DB) (i : nat) (o : Order.t) :
  reachable db0 db ->
  orders db0 !! i = Some o ->
  exists s,
    orders db !! i = Some (Order.setStatus s o)
    /\ lifecycleReaches (Order.status o) s = true
    /\ (Order.status o = Order.CANCELLED \/ Order.status o = Order.DELIVERED ->
        orders db !! i = Some o)
    /\ (Order.status o <> Order.PENDING_PAYMENT ->
        s <> Order.PENDING_PAYMENT).
Proof.
  intros Hreach Hi.
  destruct (reachable_order db0 db i o Hreach Hi) as (s & Hs & Hlife).
  exists s. repeat split; [done..| |].
  - intros Hterm. rewrite Hs. f_equal.
    rewrite <- (setStatus_same o) at 2. f_equal.
    destruct Hterm as [Hst|Hst]; rewrite Hst in *; by destruct s.
  - intros Hnp ->. by destruct (Order.status o).
Qed.

Lemma orders_only_move_along_the_lifecycle_witness :
  exists s,
    orders (run (Sweep ReplicaSet 2000000)
              (run (AdminUpdate 0 Order.PAID)
                 (sampleDB Order.PENDING_PAYMENT))) !! 0%nat
    = Some (Order.setStatus s (sampleOrder Order.PENDING_PAYMENT))
    /\ lifecycleReaches Order.PENDING_PAYMENT s = true.
Proof.
  destruct (orders_only_move_along_the_lifecycle
              (sampleDB Order.PENDING_PAYMENT)
              (run (Sweep ReplicaSet 2000000)
                 (run (AdminUpdate 0 Order.PAID)
                    (sampleDB Order.PENDING_PAYMENT)))
              0 (sampleOrder Order.PENDING_PAYMENT))
    as (s & Hs & Hlife & _).
  - apply reachable_step, reachable_step, reachable_init.
  - reflexivity.
  - exists s. split; [exact Hs|exact Hlife].
Defined.

(** ** What no operation does *)

(** One operation leaves the payments and the e-mail queue as they are,
    stores no new order and changes the [stock] of no product. *)
Lemma run_frame (op : operation) (db : DB) :
  payments (run op db) = payments db
  /\ emailJobs (run op db) = emailJobs db
  /\ length (orders (run op db)) = length (orders db)
  /\ (forall id,
        Product.stock <$> products (run op db) !! id
        = Product.stock <$> products db !! id).
Proof.
  assert (forall orderId order,
            payments (cancelledStore orderId order db) = payments db
            /\ emailJobs (cancelledStore orderId order db) = emailJobs db
            /\ length (orders (cancelledStore orderId order db))
               = length (orders db)
            /\ (forall id,
                  Product.stock <$> products (cancelledStore orderId order db)
                                    !! id
                  = Product.stock <$> products db !! id)) as Hcancelled.
  { intros orderId order. simpl. repeat split; [by rewrite length_alter|].
    intros id. rewrite lookup_incAll, sumFor_zero.
    destruct (products db !! id) as [p|]; simpl; [|done].
    f_equal. lia. }
  destruct op as [uid cart|dep user body now rnd
                  |dep user orderId now paymentSuccess rnd|dep now
                  |orderId status]; cbn [run].
  - done.
  - by rewrite checkout_store.
  - destruct (pay_store dep user orderId now paymentSuccess rnd db)
      as [->|(order & _ & _ & _ & _ & ->)]; [done|apply Hcancelled].
  - rewrite sweep_store. simpl. repeat split; [by rewrite length_map|].
    intros id. rewrite sweepLoop_products.
    destruct (products db !! id) as [p|]; simpl; [|done].
    f_equal. lia.
  - unfold updateOrderStatus, bind, gets, ret, modify. simpl.
    destruct (orders db !! orderId) as [order|]; [|done].
    destruct (negb _); [done|]. simpl. by rewrite length_alter.
Qed.

Lemma reachable_frame (db0 db : DB) :
  reachable db0 db ->
  payments db = payments db0
  /\ emailJobs db = emailJobs db0
  /\ length (orders db) = length (orders db0)
  /\ (forall id,
        Product.stock <$> products db !! id
        = Product.stock <$> products db0 !! id).
Proof.
  induction 1 as [|db op _ (Hpay & Hjobs & Hlen & Hstock)]; [done|].
  destruct (run_frame op db) as (Hpay' & Hjobs' & Hlen' & Hstock').
  repeat split; [congruence..|].
  intros id. by rewrite Hstock'.
Qed.

(** X8.  No payment is ever recorded.  After any sequence of checkouts,
    payments (accepted or declined), sweeps, admin status updates and cart
    writes, in either deployment, the payment collection is what it was at
    the start: every attempt ends at the rejected save of its document. *)
Theorem no_payment_is_ever_recorded (db0 db : DB) :
  reachable db0 db ->
  payments db = payments db0.
Proof. intros Hreach. by destruct (reachable_frame db0 db Hreach). Qed.

Lemma no_payment_is_ever_recorded_witness :
  payments
    (run (Pay Standalone sampleUser 0 3000 true "QRS")
       (run (Pay Standalone sampleUser 0 2000 false "XYZ")
          (sampleDB Order.PENDING_PAYMENT)))
  = [].
Proof.
  apply (no_payment_is_ever_recorded (sampleDB Order.PENDING_PAYMENT)).
  apply reachable_step, reachable_step, reachable_init.
Defined.

(** X29.  Nothing is ever sold.  After any sequence of operations the
    order collection holds as many orders as at the start, and every
    product has the [stock] it had: no checkout stores an order and no
    payment turns a reservation into a deduction. *)
Theorem nothing_is_ever_sold (db0 db : DB) :
  reachable db0 db ->
  length (orders db) = length (orders db0)
  /\ (forall id,
        Product.stock <$> products db !! id
        = Product.stock <$> products db0 !! id).
Proof.
  intros Hreach.
  by destruct (reachable_frame db0 db Hreach) as (_ & _ & Hlen & Hstock).
Qed.

Lemma nothing_is_ever_sold_witness :
  length
    (orders
       (run (Pay ReplicaSet sampleUser 0 2000 true "XYZ")
          (run (Checkout ReplicaSet sampleUser sampleBody 1000 "ABC")
             (cartDB 3)))) = 0%nat
  /\ Product.stock
       <$> products
             (run (Pay ReplicaSet sampleUser 0 2000 true "XYZ")
                (run (Checkout ReplicaSet sampleUser sampleBody 1000 "ABC")
                   (cartDB 3))) !! 1%N
     = Some 50.
Proof.
  destruct (nothing_is_ever_sold (cartDB 3)
              (run (Pay ReplicaSet sampleUser 0 2000 true "XYZ")
                 (run (Checkout ReplicaSet sampleUser sampleBody 1000 "ABC")
                    (cartDB 3)))) as [Hlen Hstock].
  - apply reachable_step, reachable_step, reachable_init.
  - split; [exact Hlen|]. rewrite Hstock. reflexivity.
Defined.

(** X30.  No checkout and no payment ever succeeds.  Whatever the store,
    the caller, the clock, the simulator and the deployment, checkout ends
    in an error and leaves the store as it was, and pay ends in an error;
    on a replica set pay leaves the store as it was as well. *)
Theorem checkout_and_pay_always_fail
    dep user body orderId now paymentSuccess rnd (db : DB) :
  (exists e, checkout dep user body now rnd db = (Throw e, db))
  /\ (exists e, fst (pay dep user orderId now paymentSuccess rnd db) = Throw e)
  /\ snd (pay ReplicaSet user orderId now paymentSuccess rnd db) = db.
Proof.
  split; [|split].
  - rewrite checkout_run.
    destruct (carts db !! user_id user) as [cart|]; [|by eexists].
    destruct (Cart.items cart); [by eexists|].
    destruct (firstOffender db _); by eexists.
  - rewrite pay_run.
    destruct (orders db !! orderId) as [order|]; [|by eexists].
    destruct (negb _); [by eexists|].
    destruct (Order.isExpired now order); [by eexists|].
    destruct (negb _); by eexists.
  - by destruct (pay_store ReplicaSet user orderId now paymentSuccess rnd db)
      as [->|(order & _ & _ & _ & [=] & _)].
Qed.

(** ** The confirmation e-mail *)

(** X10.  No confirmation is ever queued.  Whatever the operation
    (checkout, pay with the simulator accepting or declining, sweep, admin
    status update, cart write), whatever the deployment and whatever the
    state of the queue, the jobs queued are those queued before: the call
    of [addEmailJob] comes after the save of the payment, which is
    rejected. *)
Theorem confirmation_is_never_queued (op : operation) (db : DB) :
  emailJobs (run op db) = emailJobs db.
Proof. by destruct (run_frame op db) as (_ & Hjobs & _). Qed.

(** ** [cancelIfExpired] *)



(** * The earlier orders router *)

Lemma for_of_ext {A} (xs : list A) (f g : A -> M unit) (db : DB) :
  (forall x db', f x db' = g x db') -> for_of xs f db = for_of xs g db.
Proof.
  intros Hfg. revert db. induction xs as [|x xs IH]; intros db; [done|].
  simpl. unfold bind. rewrite Hfg. destruct (g x db) as [[[]|e] db']; [|done].
  apply IH.
Qed.

Lemma for_of_unchanged {A} (xs : list A) (f : A -> M unit) (db : DB) :
  (forall x db', f x db' = (Ok tt, db')) -> for_of xs f db = (Ok tt, db).
Proof.
  intros Hf. revert db. induction xs as [|x xs IH]; intros db; [done|].
  simpl. unfold bind. by rewrite Hf, IH.
Qed.

(** The earlier pay on a replica set, as a function of the store. *)
Lemma payEarlier_run user orderId now paymentSuccess rnd (db : DB) :
  payEarlier ReplicaSet user orderId now paymentSuccess rnd db
  = match orders db !! orderId with
    | None => (Throw (AppError "Order not found" 404), db)
    | Some order =>
        if negb (Order.userId order =? user_id user)%N then
          (Throw (AppError "Unauthorized access to order" 403), db)
        else if negb (Order.status_eqb (Order.status order)
                                       Order.PENDING_PAYMENT) then
          (Throw (AppError "Order is not in pending payment status" 400), db)
        else if Order.isExpired now order then
          (Throw (AppError "Order has expired and been cancelled" 400), db)
        else
          (Throw (ValidationError "Payment"
                    (Payment_validate
                       (paymentDocument orderId order now paymentSuccess))),
           db)
    end.
Proof.
  unfold payEarlier, withTransaction, bind at 1, Order_findById, bind at 1.
  rewrite withSession_ok by done. unfold gets.
  destruct (orders db !! orderId) as [order|]; [|simpl; by destruct db].
  destruct (negb (Order.userId order =? user_id user)%N);
    [simpl; by destruct db|].
  destruct (negb (Order.status_eqb _ _)); [simpl; by destruct db|].
  destruct (Order.isExpired now order).
  { unfold bind at 1, Order_saveStatus, bind at 1.
    rewrite withSession_ok by done. unfold modify, bind at 1.
    rewrite for_of_Product_inc by done. simpl. by destruct db. }
  destruct paymentSuccess; cbn [negb]; unfold bind at 1;
    rewrite Payment_save_new by done; simpl; by destruct db.
Qed.

(** The earlier checkout is the callback of the later one, run with the
    session inside [session.withTransaction]. *)
Lemma checkoutEarlier_run dep user body now rnd (db : DB) :
  checkoutEarlier dep user body now rnd db
  = checkout ReplicaSet user body now rnd db.
Proof.
  change (withTransaction
            (checkoutCallback dep user body now rnd (Some TxnSession)) db
          = checkout ReplicaSet user body now rnd db).
  rewrite checkout_run. unfold withTransaction.
  destruct (carts db !! user_id user) as [cart|] eqn:Hcart.
  - destruct (Cart.items cart) as [|it0 items0] eqn:Hitems.
    + unfold checkoutCallback, bind, Cart_findOne, gets.
      rewrite Hcart. simpl. rewrite Hitems. simpl.
      by rewrite abortTransaction_same.
    + rewrite <- Hitems.
      rewrite (checkoutCallback_run _ _ _ _ _ _ _ cart)
        by (done || by rewrite Hitems).
      destruct (firstOffender db (Cart.items cart));
        by rewrite abortTransaction_same.
  - unfold checkoutCallback, bind, Cart_findOne, gets.
    rewrite Hcart. simpl. by rewrite abortTransaction_same.
Qed.

(** X20.  On a replica set the two versions of the orders router are the
    same router.  Checkout and the sweeper answer alike and leave the same
    store; pay leaves the same store and answers alike except to the owner
    of an order that is no longer pending, who was told "Order is not in
    pending payment status" where the later version names the status.
    ([Order.create] and [Payment.create] of the earlier version reject the
    new document as [save] does in the later one.) *)
Theorem earlier_router_agrees_on_replica_set
    user body orderId now paymentSuccess rnd (db : DB) :
  checkoutEarlier ReplicaSet user body now rnd db
  = checkout ReplicaSet user body now rnd db
  /\ sweepEarlier ReplicaSet now db = sweep ReplicaSet now db
  /\ snd (payEarlier ReplicaSet user orderId now paymentSuccess rnd db)
     = snd (pay ReplicaSet user orderId now paymentSuccess rnd db)
  /\ fst (payEarlier ReplicaSet user orderId now paymentSuccess rnd db)
     = match payRefusal db user orderId with
       | Some (AppError _ 400) =>
           Throw (AppError "Order is not in pending payment status" 400)
       | _ => fst (pay ReplicaSet user orderId now paymentSuccess rnd db)
       end.
Proof.
  split; [|split].
  - apply checkoutEarlier_run.
  - unfold sweepEarlier, sweep, logErrors, bind, gets. do 2 f_equal.
    apply for_of_ext. intros e db'.
    rewrite cancelExpiredOrder_run.
    unfold logErrors, withTransaction, bind, Order_saveStatus, bind.
    rewrite withSession_ok by done. unfold modify.
    rewrite for_of_Product_inc by done. by destruct db'.
  - rewrite payEarlier_run, pay_run. unfold payRefusal.
    destruct (orders db !! orderId) as [order|]; [|done].
    destruct (negb (Order.userId order =? user_id user)%N); [done|].
    unfold Order.isExpired.
    destruct (Order.status order); simpl; try done;
      by destruct (Order.expiresAt order <? now).
Qed.

(** X21.  Without a replica set the earlier router could do nothing: no
    checkout ever succeeds, pay fails on its first read, and the sweeper
    cancels nothing; none of the three writes anything. *)
Theorem earlier_router_needs_a_replica_set
    user body orderId now paymentSuccess rnd (db : DB) :
  (exists e, checkoutEarlier Standalone user body now rnd db = (Throw e, db))
  /\ payEarlier Standalone user orderId now paymentSuccess rnd db
     = (Throw ReplicaSetRequired, db)
  /\ sweepEarlier Standalone now db = (Ok tt, db).
Proof.
  split; [|split].
  - rewrite checkoutEarlier_run, checkout_run.
    destruct (carts db !! user_id user) as [cart|]; [|by eexists].
    destruct (Cart.items cart); [by eexists|].
    destruct (firstOffender db _); by eexists.
  - unfold payEarlier, withTransaction. simpl.
    by rewrite abortTransaction_same.
  - unfold sweepEarlier, logErrors, bind, gets.
    rewrite for_of_unchanged; [done|].
    intros e db'. unfold logErrors, withTransaction. simpl.
    by rewrite abortTransaction_same.
Qed.

(** * Listing orders *)

Lemma pages_concat {A} (limit n : nat) (xs : list A) :
  concat (map (fun page => take limit (drop ((page - 1) * limit) xs))
              (seq 1 n))
  = take (n * limit) xs.
Proof.
  induction n as [|n IH]; [done|].
  rewrite seq_S, map_app, concat_app, IH. simpl.
  rewrite app_nil_r, Nat.sub_0_r, take_take_drop. f_equal. lia.
Qed.

Lemma ceilDiv_covers (total limit : nat) :
  (1 <= limit)%nat -> (total <= ceilDiv total limit * limit)%nat.
Proof.
  intros Hl. unfold ceilDiv.
  pose proof (Nat.div_mod total limit ltac:(lia)) as Hdm.
  pose proof (Nat.mod_upper_bound total limit ltac:(lia)) as Hmod.
  destruct (Nat.eqb_spec (total mod limit) 0) as [H0|_]; nia.
Qed.

Lemma ceilDiv_tight (total limit : nat) :
  (1 <= limit)%nat -> (1 <= total)%nat ->
  ((ceilDiv total limit - 1) * limit < total)%nat.
Proof.
  intros Hl Ht. unfold ceilDiv.
  pose proof (Nat.div_mod total limit ltac:(lia)) as Hdm.
  pose proof (Nat.mod_upper_bound total limit ltac:(lia)) as Hmod.
  destruct (Nat.eqb_spec (total mod limit) 0) as [H0|Hn0].
  - assert (1 <= total / limit)%nat by nia. nia.
  - simpl. nia.
Qed.

Lemma matchingOrders_elem filter (db : DB) (e : nat * Order.t) :
  e ∈ matchingOrders filter db <->
  orders db !! fst e = Some (snd e) /\ filter (snd e) = true.
Proof.
  unfold matchingOrders. rewrite list_elem_of_In, filter_In.
  rewrite <- list_elem_of_In, elem_of_lookup_imap. split.
  - intros [(i & o & -> & Hi) Hf]. by split.
  - intros [Hi Hf]. split; [|done]. exists (fst e), (snd e).
    split; [by destruct e|done].
Qed.

(** X22.  Paging loses and repeats nothing.  With a page size of at least
    1 and a sort that only reorders, the pages 1 to [totalPages] of a
    listing, one after the other, are exactly the matching orders in sorted
    order: each matching order is on one page and one only.  No page holds
    more than [limit] orders, the last page is not empty, every page after
    it is, and [totalItems] is the number of matching orders. *)
Theorem listing_pages_partition_the_matches
    (filter : Order.t -> bool)
    (sorted : list (nat * Order.t) -> list (nat * Order.t))
    (limit : nat) (db : DB) :
  (1 <= limit)%nat ->
  (forall l, sorted l ≡ₚ l) ->
  let pages := totalPages (snd (findOrders filter sorted 1 limit db)) in
  concat (map (fun page => fst (findOrders filter sorted page limit db))
              (seq 1 pages))
  = sorted (matchingOrders filter db)
  /\ (forall page, (1 <= page)%nat ->
        (length (fst (findOrders filter sorted page limit db)) <= limit)%nat
        /\ totalItems (snd (findOrders filter sorted page limit db))
           = length (matchingOrders filter db)
        /\ ((pages < page)%nat ->
            fst (findOrders filter sorted page limit db) = []))
  /\ ((1 <= pages)%nat ->
      fst (findOrders filter sorted pages limit db) <> []).
Proof.
  intros Hl Hperm. unfold findOrders. cbn [fst snd totalPages totalItems].
  fold (matchingOrders filter db).
  set (matching := matchingOrders filter db).
  assert (length (sorted matching) = length matching) as Hlen
    by by rewrite Hperm.
  pose proof (ceilDiv_covers (length matching) limit Hl) as Hcover.
  split; [|split].
  - rewrite pages_concat. apply take_ge. lia.
  - intros page _. split; [rewrite length_take; lia|]. split; [done|].
    intros Hbeyond. apply length_zero_iff_nil.
    rewrite length_take, length_drop. nia.
  - intros Hpages Hempty.
    apply (f_equal length) in Hempty.
    rewrite length_take, length_drop in Hempty. simpl in Hempty.
    assert (1 <= length matching)%nat as Hsome.
    { destruct (length matching) eqn:Hz; [|lia].
      unfold ceilDiv in Hpages. rewrite Nat.Div0.mod_0_l in Hpages.
      simpl in Hpages. rewrite Nat.Div0.div_0_l in Hpages. lia. }
    pose proof (ceilDiv_tight (length matching) limit Hl Hsome). lia.
Qed.

Lemma listing_pages_partition_the_matches_witness :
  fst (findOrders (fun _ => true) (fun l => l) 1 1
         (sampleDB Order.PAID))
  = [(0%nat, sampleOrder Order.PAID)]
  /\ fst (findOrders (fun _ => true) (fun l => l) 2 1
            (sampleDB Order.PAID)) = []
  /\ fst (findOrders (fun _ => true) (fun l => l) 1 1
            (sampleDB Order.PAID)) <> [].
Proof.
  destruct (listing_pages_partition_the_matches (fun _ => true) (fun l => l)
              1 (sampleDB Order.PAID))
    as (_ & Hpage & Hlast); [lia|done|].
  split; [vm_compute; reflexivity|]. split.
  - apply (Hpage 2%nat); [lia|]. vm_compute. lia.
  - apply Hlast. vm_compute. lia.
Defined.

(** X23.  A user's listing shows that user's orders only.  Every order on
    any page of GET /api/orders is a stored order owned by the caller and,
    when a status was asked for, of that status. *)
Theorem getOrders_shows_own_orders_only
    user (status : option Order.status_t)
    (sorted : list (nat * Order.t) -> list (nat * Order.t))
    (page limit : nat) (db : DB) (e : nat * Order.t) :
  (1 <= page)%nat ->
  (forall l, sorted l ≡ₚ l) ->
  e ∈ fst (getOrders user status sorted page limit db) ->
  orders db !! fst e = Some (snd e)
  /\ Order.userId (snd e) = user_id user
  /\ (forall s, status = Some s -> Order.status (snd e) = s).
Proof.
  intros _ Hperm Hin. unfold getOrders, findOrders in Hin. cbn [fst] in Hin.
  apply subseteq_take, subseteq_drop in Hin.
  fold (matchingOrders (userFilter user status) db) in Hin.
  rewrite Hperm in Hin. apply matchingOrders_elem in Hin as [Hstored Hf].
  unfold userFilter in Hf. apply andb_prop in Hf as [Howner Hstatus].
  apply N.eqb_eq in Howner. repeat split; [done..|].
  intros s ->. by apply status_eqb_eq.
Qed.

Lemma getOrders_shows_own_orders_only_witness :
  Order.userId (sampleOrder Order.PAID) = user_id sampleUser.
Proof.
  apply (getOrders_shows_own_orders_only sampleUser (Some Order.PAID)
           (fun l => l) 1 10 (sampleDB Order.PAID)
           (0%nat, sampleOrder Order.PAID)); [lia|done|].
  vm_compute. apply list_elem_of_here.
Defined.

(** X24.  The admin listing filtered by a user's id shows what that user
    sees: for the same status, sort, page and page size, GET
    /api/admin/orders with [userId] set returns the orders and the
    pagination of that user's GET /api/orders.  With no filter at all it
    counts every stored order. *)
Theorem admin_listing_by_user_is_the_users_listing
    user (status : option Order.status_t)
    (sorted : list (nat * Order.t) -> list (nat * Order.t))
    (page limit : nat) (db : DB) :
  adminGetOrders status (Some (user_id user)) sorted page limit db
  = getOrders user status sorted page limit db
  /\ totalItems (snd (adminGetOrders None None sorted page limit db))
     = length (orders db).
Proof.
  split.
  - unfold adminGetOrders, getOrders, findOrders.
    rewrite (List.filter_ext
               (fun e => adminFilter status (Some (user_id user)) (snd e))
               (fun e => userFilter user status (snd e))); [done|].
    intros e. unfold adminFilter, userFilter. apply andb_comm.
  - unfold adminGetOrders, findOrders. cbn [snd totalItems].
    rewrite <- (length_imap pair (orders db)). f_equal.
    induction (imap pair (orders db)) as [|e l IH]; [done|].
    simpl. by rewrite IH.
Qed.

(** * The revenue of the dashboard *)

Lemma revenue_fold total (os : list Order.t) :
  foldl (fun total o => total + Order.totalAmount o) total
        (List.filter (fun o => countsAsRevenue (Order.status o)) os)
  = total + revenueOf os.
Proof.
  revert total. induction os as [|o os IH]; intros total; simpl; [lia|].
  destruct (countsAsRevenue (Order.status o)); simpl; rewrite IH; lia.
Qed.

Lemma dashboardRevenue_sum (db : DB) :
  dashboardRevenue db = revenueOf (orders db).
Proof.
  unfold dashboardRevenue, aggregateRevenue.
  pose proof (revenue_fold 0 (orders db)) as Hfold.
  destruct (List.filter _ (orders db)) as [|o os] eqn:Hmatched.
  - simpl in Hfold. lia.
  - rewrite Hfold. lia.
Qed.

Lemma revenueOf_alter (os : list Order.t) (i : nat) (o : Order.t) s :
  os !! i = Some o ->
  revenueOf (alter (Order.setStatus s) i os)
  = revenueOf os
    + (if countsAsRevenue s then Order.totalAmount o else 0)
    - (if countsAsRevenue (Order.status o) then Order.totalAmount o else 0).
Proof.
  revert i. induction os as [|o' os IH]; intros [|i] Hi; try done.
  - injection Hi as ->.
    change (revenueOf (Order.setStatus s o :: os)
            = revenueOf (o :: os)
              + (if countsAsRevenue s then Order.totalAmount o else 0)
              - (if countsAsRevenue (Order.status o)
                 then Order.totalAmount o else 0)).
    unfold revenueOf. cbn [foldr Order.status Order.setStatus
                              Order.totalAmount]. lia.
  - change (revenueOf (o' :: alter (Order.setStatus s) i os)
            = revenueOf (o' :: os)
              + (if countsAsRevenue s then Order.totalAmount o else 0)
              - (if countsAsRevenue (Order.status o)
                 then Order.totalAmount o else 0)).
    unfold revenueOf in *. cbn [foldr]. rewrite (IH i Hi). lia.
Qed.

(** Cancelling pending orders moves no revenue. *)
Lemma revenueOf_swept now (os : list Order.t) :
  revenueOf (map (sweptOrder now) os) = revenueOf os.
Proof.
  induction os as [|o os IH]; [done|].
  change (revenueOf (sweptOrder now o :: map (sweptOrder now) os)
          = revenueOf (o :: os)).
  unfold revenueOf in *. cbn [foldr]. rewrite IH. f_equal.
  unfold sweptOrder. destruct (Order.isExpired now o) eqn:Hexp; [|done].
  by rewrite (isExpired_pending now o Hexp).
Qed.



(** * The order detail *)

Lemma reachable_payments (db0 db : DB) :
  reachable db0 db -> payments db = payments db0.
Proof. intros Hreach. by destruct (reachable_frame db0 db Hreach). Qed.

(** X26.  The order detail never shows a payment that was not there from
    the start.  After any sequence of operations the detail of an order,
    the user's and the admin's alike, shows the payment it showed at the
    start, or none if it showed none, beside the same order at a status
    the legal transitions lead to.  So in a store that started without
    payments an order is shown PAID, once the admin has marked it so,
    without any payment. *)
Theorem order_detail_payment_never_changes
    (db0 db : DB) user (orderId : nat) (o : Order.t)
    (p : option Payment.t) :
  reachable db0 db ->
  getOrder user orderId db0 = OrderDetailJson o p ->
  exists s,
    getOrder user orderId db = OrderDetailJson (Order.setStatus s o) p
    /\ adminGetOrder orderId db = OrderDetailJson (Order.setStatus s o) p
    /\ lifecycleReaches (Order.status o) s = true.
Proof.
  intros Hreach Hshown. unfold getOrder in Hshown.
  destruct (orders db0 !! orderId) as [order|] eqn:Hfound; [|done].
  destruct (negb (Order.userId order =? user_id user)%N) eqn:Howner; [done|].
  injection Hshown as -> Hfirst.
  destruct (reachable_order db0 db orderId o Hreach Hfound)
    as (s & Hlater & Hlife).
  assert (Payment_findOne orderId db = p) as Hfirst'.
  { unfold Payment_findOne in *. by rewrite (reachable_payments db0 db). }
  exists s. unfold getOrder, adminGetOrder.
  rewrite Hlater, Hfirst'. cbn [Order.userId Order.setStatus].
  by rewrite Howner.
Qed.

Lemma order_detail_payment_never_changes_witness :
  exists s,
    getOrder sampleUser 0
      (run (AdminUpdate 0 Order.PAID)
           (run (Pay Standalone sampleUser 0 2000 true "XYZ")
                (sampleDB Order.PENDING_PAYMENT)))
    = OrderDetailJson (Order.setStatus s (sampleOrder Order.PENDING_PAYMENT))
        None
    /\ adminGetOrder 0
         (run (AdminUpdate 0 Order.PAID)
              (run (Pay Standalone sampleUser 0 2000 true "XYZ")
                   (sampleDB Order.PENDING_PAYMENT)))
       = OrderDetailJson
           (Order.setStatus s (sampleOrder Order.PENDING_PAYMENT)) None
    /\ lifecycleReaches Order.PENDING_PAYMENT s = true.
Proof.
  apply (order_detail_payment_never_changes
           (sampleDB Order.PENDING_PAYMENT)).
  - apply reachable_step, reachable_step, reachable_init.
  - vm_compute. reflexivity.
Defined.

(** * The cart router *)

(** ** Printed ids *)

Lemma hexDigit_cases (d : N) :
  (d < 16)%N ->
  d ∈ [0; 1; 2; 3; 4; 5; 6; 7; 8; 9; 10; 11; 12; 13; 14; 15]%N.
Proof.
  intros Hd. rewrite !elem_of_cons, elem_of_nil.
  destruct d as [|[[[[?|?|]|[?|?|]|]|[[?|?|]|[?|?|]|]|]|[[[?|?|]|[?|?|]|]
                   |[[?|?|]|[?|?|]|]|]|]]; try lia; tauto.
Qed.

Lemma hexDigit_inj (d e : N) :
  (d < 16)%N -> (e < 16)%N -> hexDigit d = hexDigit e -> d = e.
Proof.
  intros Hd He.
  apply hexDigit_cases in Hd, He.
  rewrite !elem_of_cons, elem_of_nil in Hd, He.
  repeat (destruct Hd as [->|Hd]); try done;
    repeat (destruct He as [->|He]); try done; try discriminate.
Qed.

Lemma hexDigit_hex (d : N) : (d < 16)%N -> isHexChar (hexDigit d) = true.
Proof.
  intros Hd. apply hexDigit_cases in Hd.
  rewrite !elem_of_cons, elem_of_nil in Hd.
  repeat (destruct Hd as [->|Hd]); done.
Qed.

(** The printed digits determine the id up to the digits printed. *)
Lemma hexFrom_inj (n : nat) (x y : N) :
  hexFrom n x = hexFrom n y ->
  (x mod 16 ^ N.of_nat n = y mod 16 ^ N.of_nat n)%N.
Proof.
  induction n as [|n IH]; intros Heq.
  - by rewrite !N.mod_1_r.
  - simpl in Heq. injection Heq as Hdigit Hrest.
    apply hexDigit_inj in Hdigit; [|by apply N.mod_lt..].
    rewrite Nat2N.inj_succ, N.pow_succ_r', (N.mul_comm 16).
    rewrite !N.Div0.mod_mul_r. by rewrite (IH Hrest), Hdigit.
Qed.

Lemma ObjectId_toString_inj (x y : ObjectId) :
  (x < 2 ^ 96)%N -> (y < 2 ^ 96)%N ->
  ObjectId_toString x = ObjectId_toString y -> x = y.
Proof.
  intros Hx Hy Heq. apply hexFrom_inj in Heq.
  change (16 ^ N.of_nat 24)%N with (2 ^ 96)%N in Heq.
  by rewrite !N.mod_small in Heq.
Qed.

Lemma hexFrom_hex (n : nat) (x : N) :
  String.length (hexFrom n x) = n
  /\ forallb isHexChar (String.list_ascii_of_string (hexFrom n x)) = true.
Proof.
  induction n as [|n [IHlen IHhex]]; [done|].
  cbn [hexFrom String.length String.list_ascii_of_string forallb].
  rewrite IHlen, IHhex, hexDigit_hex; [done|].
  by apply N.mod_lt.
Qed.

(** A printed id passes the pattern of the route. *)
Lemma ObjectId_toString_valid (id : ObjectId) :
  isObjectIdString (ObjectId_toString id) = true.
Proof.
  unfold isObjectIdString, ObjectId_toString.
  destruct (hexFrom_hex 24 id) as [-> ->]. done.
Qed.

(** ** Saving a cart *)

Lemma Cart_preSave_items db items : Cart.items (Cart_preSave db items) = items.
Proof. by destruct items. Qed.

Lemma concat_imap_nil {A B} (f : nat -> A -> list B) (l : list A) :
  (forall i x, x ∈ l -> f i x = []) -> concat (imap f l) = [].
Proof.
  revert f. induction l as [|x l IH]; intros f Hf; [done|].
  cbn [imap concat]. rewrite Hf by apply list_elem_of_here.
  apply IH. intros i y Hy. apply Hf. by apply list_elem_of_further.
Qed.

Lemma Cart_validate_ok (items : list Cart.item) :
  Forall lineOk items -> Cart_validate items = [].
Proof.
  intros Hok. apply concat_imap_nil. intros i it Hit.
  rewrite Forall_forall in Hok. destruct (Hok it Hit) as [Hq _].
  unfold failing. cbn [List.filter fst].
  destruct (Z.leb_spec 1 (Cart.quantity it)); [|lia].
  by destruct (Z.leb_spec (Cart.quantity it) 100); [|lia].
Qed.

Lemma Cart_save_run uid (items : list Cart.item) (db : DB) :
  Forall lineOk items ->
  Cart_save uid items db
  = (Ok (Cart_preSave db items),
     setCarts (insert uid (Cart_preSave db items)) db).
Proof. intros Hok. unfold Cart_save. by rewrite Cart_validate_ok. Qed.

Lemma Cart_removeItem_ok items productId :
  Forall lineOk items -> Forall lineOk (Cart_removeItem items productId).
Proof.
  induction 1 as [|it items Hit _ IH]; [constructor|].
  unfold Cart_removeItem in *. cbn [List.filter].
  destruct (negb _); [by constructor|done].
Qed.

Lemma Cart_removeItem_idem items productId :
  Cart_removeItem (Cart_removeItem items productId) productId
  = Cart_removeItem items productId.
Proof.
  unfold Cart_removeItem. induction items as [|it items IH]; [done|].
  cbn [List.filter]. destruct (negb _) eqn:Hkeep; [|done].
  cbn [List.filter]. by rewrite Hkeep, IH.
Qed.

(** A printed id removes the lines of that product and no other. *)
Lemma Cart_removeItem_printed items (oid : ObjectId) :
  (oid < 2 ^ 96)%N ->
  Forall lineOk items ->
  Cart_removeItem items (ObjectId_toString oid) = linesWithout oid items.
Proof.
  intros Hoid. unfold Cart_removeItem, linesWithout.
  induction 1 as [|it items [_ Hid] _ IH]; [done|].
  cbn [List.filter]. rewrite IH.
  destruct (N.eqb_spec (Cart.productId it) oid) as [->|Hne].
  - by rewrite String.eqb_refl.
  - destruct (String.eqb_spec (ObjectId_toString (Cart.productId it))
                              (ObjectId_toString oid)) as [Heq|]; [|done].
    by apply ObjectId_toString_inj in Heq.
Qed.

(** An id that is the print of no line's product removes nothing. *)
Lemma Cart_removeItem_foreign items productId :
  (forall it, it ∈ items -> ObjectId_toString (Cart.productId it) <> productId) ->
  Cart_removeItem items productId = items.
Proof.
  unfold Cart_removeItem. induction items as [|it items IH]; [done|].
  intros Hforeign. cbn [List.filter].
  destruct (String.eqb_spec (ObjectId_toString (Cart.productId it)) productId)
    as [Heq|_].
  - exfalso. by apply (Hforeign it); [apply list_elem_of_here|].
  - cbn [negb]. rewrite IH; [done|].
    intros it' Hin. apply Hforeign. by apply list_elem_of_further.
Qed.

Lemma Cart_showLines_stored db items :
  allStored db items = true -> is_Some (Cart_showLines db items).
Proof.
  induction items as [|it items IH]; simpl; [by eexists|].
  intros [Hit Hrest]%andb_prop. apply bool_decide_eq_true in Hit as [p Hp].
  rewrite Hp. destruct (IH Hrest) as [lines ->]. by eexists.
Qed.

Lemma Cart_showLines_dangling db items it :
  it ∈ items -> products db !! Cart.productId it = None ->
  Cart_showLines db items = None.
Proof.
  induction items as [|it' items IH]; simpl.
  - by intros ?%elem_of_nil.
  - intros [->|Hin]%elem_of_cons Hgone.
    + by rewrite Hgone.
    + destruct (products db !! Cart.productId it'); [|done].
      by rewrite IH.
Qed.

Lemma Cart_showLines_products (db1 db2 : DB) items :
  products db1 = products db2 ->
  Cart_showLines db1 items = Cart_showLines db2 items.
Proof.
  intros Hp. induction items as [|it items IH]; [done|].
  simpl. by rewrite Hp, IH.
Qed.

Lemma setCarts_insert_insert uid (c c' : Cart.t) (db : DB) :
  setCarts (insert uid c') (setCarts (insert uid c) db)
  = setCarts (insert uid c') db.
Proof. unfold setCarts. simpl. by rewrite insert_insert_eq. Qed.

(** DELETE /api/cart/items/:productId on a stored cart with proper lines,
    as a function of the store. *)
Lemma deleteCartItem_run user productId (db : DB) (cart : Cart.t) :
  carts db !! user_id user = Some cart ->
  isObjectIdString productId = true ->
  Forall lineOk (Cart.items cart) ->
  let saved := Cart_preSave db (Cart_removeItem (Cart.items cart) productId) in
  deleteCartItem user productId db
  = (match Cart_showLines db (Cart.items saved) with
     | Some lines =>
         Ok (CartJson 200 "success"
               (Some "Item removed from cart successfully")
               (Some (lines, Cart.totalItems saved, Cart.totalAmount saved)))
     | None => Throw TypeError
     end,
     setCarts (insert (user_id user) saved) db).
Proof.
  intros Hcart Hid Hok saved.
  unfold deleteCartItem. rewrite Hid. cbn [negb].
  unfold bind at 1, gets. rewrite Hcart. unfold bind at 1.
  rewrite Cart_save_run by by apply Cart_removeItem_ok.
  fold saved. unfold Cart_respond, bind, gets.
  rewrite (Cart_showLines_products _ db) by done.
  by destruct (Cart_showLines db (Cart.items saved)).
Qed.

(** X12.  The cart routes write the cart of the caller and nothing else.
    Whatever the request (show, remove a line, clear) and whatever it
    answers, the products, the orders, the payments and the e-mail queue
    are exactly as before, and so is the cart of every other user. *)
Theorem cart_requests_write_the_callers_cart_only
    (r : cartRequest) (db : DB) :
  products (snd (serve r db)) = products db
  /\ orders (snd (serve r db)) = orders db
  /\ payments (snd (serve r db)) = payments db
  /\ emailJobs (snd (serve r db)) = emailJobs db
  /\ (forall uid, uid <> user_id (requester r) ->
        carts (snd (serve r db)) !! uid = carts db !! uid).
Proof.
  destruct r as [user|user productId|user]; cbn [serve requester].
  - unfold getCart, Cart_create, Cart_respond, bind, gets, modify, ret.
    destruct (carts db !! user_id user) as [cart|]; simpl.
    + by destruct (Cart_showLines db _).
    + repeat split. intros uid Hne. by rewrite lookup_insert_ne.
  - unfold deleteCartItem, Cart_save, Cart_respond, bind, gets, modify, ret.
    destruct (negb _); [done|].
    destruct (carts db !! user_id user) as [cart|]; [|done].
    destruct (Cart_validate _); [|done]. simpl.
    destruct (Cart_showLines _ _); simpl; repeat split;
      intros uid Hne; by rewrite lookup_insert_ne.
  - unfold deleteCart, Cart_save, bind, gets, modify, ret.
    destruct (carts db !! user_id user) as [cart|]; [|done].
    simpl. repeat split. intros uid Hne. by rewrite lookup_insert_ne.
Qed.

(** X17.  DELETE /api/cart/items/:productId removes the lines whose
    printed id is the text of the URL.  On a stored cart with proper lines
    the request saves the cart; given the id of a product as the driver
    prints it, in lower case, the saved cart has lost every line of that
    product and kept every other line as it was; given a text that is the
    print of no line's id, as is any text with an upper-case digit, it has
    lost nothing.  Either way the answer is the 200 "Item removed from
    cart successfully" when the products of the lines left are stored, and
    the same request again leaves the store as the first one did. *)
Theorem deleteCartItem_removes_the_line
    user productId (db : DB) (cart : Cart.t) :
  carts db !! user_id user = Some cart ->
  isObjectIdString productId = true ->
  Forall lineOk (Cart.items cart) ->
  exists saved,
    snd (deleteCartItem user productId db)
    = setCarts (insert (user_id user) saved) db
    /\ saved = Cart_preSave db (Cart.items saved)
    /\ (forall oid, (oid < 2 ^ 96)%N -> productId = ObjectId_toString oid ->
          Cart.items saved = linesWithout oid (Cart.items cart))
    /\ ((forall it, it ∈ Cart.items cart ->
           ObjectId_toString (Cart.productId it) <> productId) ->
        Cart.items saved = Cart.items cart)
    /\ (allStored db (Cart.items saved) = true ->
        exists lines,
          fst (deleteCartItem user productId db)
          = Ok (CartJson 200 "success"
                  (Some "Item removed from cart successfully")
                  (Some (lines, Cart.totalItems saved,
                         Cart.totalAmount saved))))
    /\ snd (deleteCartItem user productId
              (snd (deleteCartItem user productId db)))
       = snd (deleteCartItem user productId db).
Proof.
  intros Hcart Hid Hok.
  exists (Cart_preSave db (Cart_removeItem (Cart.items cart) productId)).
  rewrite (deleteCartItem_run user productId db cart) by done.
  cbn [fst snd]. rewrite Cart_preSave_items.
  split; [done|]. split; [done|]. split; [|split; [|split]].
  - intros oid Hoid ->. by apply Cart_removeItem_printed.
  - apply Cart_removeItem_foreign.
  - intros Hstored.
    destruct (Cart_showLines_stored db _ Hstored) as [lines ->]. eauto.
  - rewrite (deleteCartItem_run user productId _
               (Cart_preSave db
                  (Cart_removeItem (Cart.items cart) productId))).
    + cbn [snd]. rewrite setCarts_insert_insert, Cart_preSave_items.
      by rewrite Cart_removeItem_idem.
    + simpl. by rewrite lookup_insert_eq.
    + done.
    + rewrite Cart_preSave_items. by apply Cart_removeItem_ok.
Qed.

Lemma deleteCartItem_removes_the_line_witness :
  carts (snd (deleteCartItem sampleUser "00000000000000000000000a" tenDB))
  !! 7%N = Some Cart.cleared
  /\ carts (snd (deleteCartItem sampleUser "00000000000000000000000A" tenDB))
     !! 7%N = Some (Cart.mk [Cart.mkItem 10%N 3] 3 29997).
Proof.
  assert (Forall lineOk [Cart.mkItem 10%N 3]) as Hok.
  { repeat constructor; simpl; lia. }
  destruct (deleteCartItem_removes_the_line sampleUser
              "00000000000000000000000a" tenDB
              (Cart.mk [Cart.mkItem 10%N 3] 3 29997) eq_refl eq_refl Hok)
    as (saved & -> & Hsaved & Hprinted & _).
  destruct (deleteCartItem_removes_the_line sampleUser
              "00000000000000000000000A" tenDB
              (Cart.mk [Cart.mkItem 10%N 3] 3 29997) eq_refl eq_refl Hok)
    as (kept & -> & Hkept & _ & Hforeign & _).
  split.
  - simpl. rewrite lookup_insert_eq. f_equal. rewrite Hsaved.
    rewrite (Hprinted 10%N); [reflexivity|lia|reflexivity].
  - simpl. rewrite lookup_insert_eq. f_equal. rewrite Hkept.
    rewrite Hforeign; [reflexivity|].
    intros it Hin. apply list_elem_of_singleton in Hin as ->. discriminate.
Defined.

(** X19.  A deleted product breaks the cart until its line is removed.
    While the cart holds a line whose product is no longer stored, showing
    the cart fails on the null reference and writes nothing.  If that
    product is the only one gone, removing its line, the id given as the
    driver prints it, answers 200, and the cart is shown again from then
    on with the totals of that answer. *)
Theorem removing_the_dangling_line_repairs_the_cart
    user (oid : ObjectId) (db : DB) (cart : Cart.t) :
  carts db !! user_id user = Some cart ->
  Forall lineOk (Cart.items cart) ->
  (oid < 2 ^ 96)%N ->
  oid ∈ map Cart.productId (Cart.items cart) ->
  products db !! oid = None ->
  (forall it, it ∈ Cart.items cart -> Cart.productId it <> oid ->
              is_Some (products db !! Cart.productId it)) ->
  getCart user db = (Throw TypeError, db)
  /\ exists lines totalItems totalAmount,
       fst (deleteCartItem user (ObjectId_toString oid) db)
       = Ok (CartJson 200 "success"
               (Some "Item removed from cart successfully")
               (Some (lines, totalItems, totalAmount)))
       /\ fst (getCart user
                 (snd (deleteCartItem user (ObjectId_toString oid) db)))
          = Ok (CartJson 200 "success" None
                  (Some (lines, totalItems, totalAmount))).
Proof.
  intros Hcart Hok Hoid Hin Hgone Hothers. split.
  - unfold getCart, bind at 1, gets. rewrite Hcart.
    unfold bind at 1, ret, Cart_respond, bind, gets.
    apply list_elem_of_fmap in Hin as (it & -> & Hit).
    by rewrite (Cart_showLines_dangling db _ it).
  - rewrite (deleteCartItem_run user _ db cart)
      by (done || apply ObjectId_toString_valid).
    cbn [fst snd]. rewrite Cart_preSave_items, Cart_removeItem_printed by done.
    assert (allStored db (linesWithout oid (Cart.items cart)) = true)
      as Hstored.
    { unfold allStored, linesWithout. apply forallb_forall.
      intros it [Hit Hkeep]%filter_In. apply bool_decide_eq_true.
      apply Hothers; [by apply list_elem_of_In|].
      intros Heq. rewrite Heq, N.eqb_refl in Hkeep. done. }
    destruct (Cart_showLines_stored db _ Hstored) as [lines Hlines].
    rewrite Hlines. eexists _, _, _. split; [done|].
    unfold getCart, bind at 1, gets. simpl. rewrite lookup_insert_eq.
    unfold bind at 1, ret, Cart_respond, bind, gets.
    rewrite Cart_preSave_items.
    rewrite (Cart_showLines_products _ db) by done. by rewrite Hlines.
Qed.

Lemma removing_the_dangling_line_repairs_the_cart_witness :
  getCart sampleUser danglingDB = (Throw TypeError, danglingDB)
  /\ fst (getCart sampleUser
            (snd (deleteCartItem sampleUser "00000000000000000000000a"
                    danglingDB)))
     = Ok (CartJson 200 "success" None (Some ([], 0, 0))).
Proof.
  destruct (removing_the_dangling_line_repairs_the_cart sampleUser 10%N
              danglingDB (Cart.mk [Cart.mkItem 10%N 3] 3 29997))
    as (Hshow & lines & totalItems & totalAmount & Hdelete & Hagain).
  - reflexivity.
  - repeat constructor; simpl; lia.
  - lia.
  - apply list_elem_of_here.
  - reflexivity.
  - intros it Hin Hne. apply list_elem_of_singleton in Hin as ->. done.
  - split; [exact Hshow|].
    change (ObjectId_toString 10%N) with "00000000000000000000000a"
      in Hdelete, Hagain.
    rewrite Hagain. f_equal.
    assert (fst (deleteCartItem sampleUser "00000000000000000000000a"
                   danglingDB)
            = Ok (CartJson 200 "success"
                    (Some "Item removed from cart successfully")
                    (Some ([], 0, 0)))) as Hfst by (vm_compute; reflexivity).
    rewrite Hdelete in Hfst. by injection Hfst as -> -> ->.
Defined.
